(** * batch_simulations.py: batch orchestration of KSE parameter-estimation runs

    A shallow embedding of [src/batch_simulations.py]: the metric utilities
    ([fourier_projector], [l2_norm]), the per-run loop ([run_simulation]), the
    failure-isolating [simulation_wrapper], and the [BatchSimulator] methods
    [run_batch] and [run_simulations_low].

    Python objects are values of the inductive type [value]; dictionaries are
    insertion-ordered association lists, as Python's [dict] is; exceptions are
    an explicit [result] type; printing, the worker pool, [np.savez],
    [index.append] and [json.dump] are recorded, in program order, as a list
    of [event]s.  The solver classes [KS] and [KSAssim] come from the module
    [KS_order], which is imported by the file but is not part of it: they
    are taken as an interface ([Solver]). *)

From Stdlib Require Import ZArith List Ascii String SpecFloat Lia.
From stdpp Require Import base tactics option list sets strings pretty.

Set Warnings "-clear-no-such-hyp".

Open Scope Z_scope.

(** ** Python values *)

(** Floats are IEEE 754 binary64 numbers, with the Standard Library's
    executable specification of the format ([spec_float]). *)
#[warnings="-register-all"]
Inductive value :=
  | VNone
  | VBool (b : bool)
  | VInt (z : Z)
  | VFloat (f : spec_float)
  | VStr (s : string)
  | VList (l : list value)
  | VDict (d : list (string * value)).

(** A [dict] with string keys: the pairs in insertion order. *)
Abbreviation dict := (list (string * value)).

Definition type_name (v : value) : string :=
  match v with
  | VNone => "NoneType"
  | VBool _ => "bool"
  | VInt _ => "int"
  | VFloat _ => "float"
  | VStr _ => "str"
  | VList _ => "list"
  | VDict _ => "dict"
  end.

(** *** Exceptions *)

Inductive exc_class :=
  | RuntimeWarning
  | ValueError
  | TypeError
  | ZeroDivisionError
  | OverflowError
  | AttributeError
  | IndexError
  | KeyError
  | KeyboardInterrupt
  | SystemExit
  | OtherError (name : string).

Definition class_name (c : exc_class) : string :=
  match c with
  | RuntimeWarning => "RuntimeWarning"
  | ValueError => "ValueError"
  | TypeError => "TypeError"
  | ZeroDivisionError => "ZeroDivisionError"
  | OverflowError => "OverflowError"
  | AttributeError => "AttributeError"
  | IndexError => "IndexError"
  | KeyError => "KeyError"
  | KeyboardInterrupt => "KeyboardInterrupt"
  | SystemExit => "SystemExit"
  | OtherError name => name
  end.

(** [isinstance(e, Exception)]: [KeyboardInterrupt] and [SystemExit] derive
    from [BaseException] only; [OtherError] stands for any other class
    derived from [Exception]. *)
Definition is_Exception (c : exc_class) : bool :=
  match c with
  | KeyboardInterrupt | SystemExit => false
  | _ => true
  end.

(** A raised exception: its class, its message and the formatted frames of
    its traceback. *)
Record exn := Exn {
  exn_class : exc_class;
  exn_msg : string;
  exn_tb : string
}.

(** The double-quote character, as a string. *)
Definition dquote : string := String "034"%char EmptyString.

(** The frame text of an exception raised by a statement of this file. *)
Definition frame (line : nat) (func : string) : string :=
  ("  File " ++ dquote ++ "batch_simulations.py" ++ dquote ++ ", line " ++ pretty line
   ++ ", in " ++ func ++ "
")%string.

(** [raise cls(msg)] at a line of this file. *)
Definition raised (c : exc_class) (msg : string) (line : nat) (func : string) : exn :=
  Exn c msg (frame line func).

(** [traceback.format_exc()] for the exception being handled: the header,
    the frames, then the class and the message. *)
Definition traceback_header : string :=
  "Traceback (most recent call last):
".

Definition format_exc (e : exn) : string :=
  (traceback_header ++ exn_tb e ++ class_name (exn_class e)
   ++ (if decide (exn_msg e = EmptyString) then EmptyString else ": " ++ exn_msg e) ++ "
")%string.

(** *** Computations that may raise *)

Inductive result (A : Type) :=
  | Ok (a : A)
  | Raise (e : exn).
Arguments Ok {A} a.
Arguments Raise {A} e.

#[global] Instance result_ret : MRet result := fun A a => Ok a.
#[global] Instance result_bind : MBind result := fun A B f m =>
  match m with
  | Ok a => f a
  | Raise e => Raise e
  end.
#[global] Instance result_fmap : FMap result := fun A B f m =>
  match m with
  | Ok a => Ok (f a)
  | Raise e => Raise e
  end.

(** [mapM]: run [f] on the elements from left to right, stopping at the
    first exception. *)
Fixpoint mapR {A B : Type} (f : A -> result B) (l : list A) : result (list B) :=
  match l with
  | [] => Ok []
  | x :: l' => y ← f x; ys ← mapR f l'; Ok (y :: ys)
  end.

(** [n] iterations of a loop body over the loop state. *)
Fixpoint iterR {S : Type} (n : nat) (body : S -> result S) (s : S) : result S :=
  match n with
  | O => Ok s
  | Datatypes.S n' => s' ← body s; iterR n' body s'
  end.

(** *** Numbers *)

Definition prec : Z := 53.
Definition emax : Z := 1024.

(** The integer [z] as an exact (not normalised) binary float. *)
Definition exact_of_Z (z : Z) : spec_float :=
  match z with
  | Z0 => S754_zero false
  | Zpos p => S754_finite false p 0
  | Zneg p => S754_finite true p 0
  end.

(** [float(z)]: rounded to nearest even; too large an [int] raises. *)
Definition float_of_int (z : Z) : result spec_float :=
  match binary_normalize prec emax z 0 false with
  | S754_infinity _ => Raise (Exn OverflowError "int too large to convert to float" EmptyString)
  | f => Ok f
  end.

Definition is_zero (f : spec_float) : bool :=
  match f with
  | S754_zero _ => true
  | _ => false
  end.

(** [x / y] on two floats. *)
Definition float_truediv (x y : spec_float) : result spec_float :=
  if is_zero y then Raise (Exn ZeroDivisionError "float division by zero" EmptyString)
  else Ok (SFdiv prec emax x y).

(** [a / b] on two ints: the correctly rounded quotient. *)
Definition int_truediv (a b : Z) : result spec_float :=
  if b =? 0 then Raise (Exn ZeroDivisionError "division by zero" EmptyString)
  else
    match SFdiv prec emax (exact_of_Z a) (exact_of_Z b) with
    | S754_infinity _ =>
        Raise (Exn OverflowError "integer division result too large for a float" EmptyString)
    | f => Ok f
    end.

(** The numeric reading of a value: an int ([bool] is a subclass of [int])
    or a float. *)
Definition as_number (v : value) : option (Z + spec_float) :=
  match v with
  | VBool b => Some (inl (if b then 1 else 0))
  | VInt z => Some (inl z)
  | VFloat f => Some (inr f)
  | _ => None
  end.

Definition to_float (n : Z + spec_float) : result spec_float :=
  match n with
  | inl z => float_of_int z
  | inr f => Ok f
  end.

(** Python's true division [a / b] on built-in values. *)
Definition truediv (a b : value) : result spec_float :=
  match as_number a, as_number b with
  | Some (inl x), Some (inl y) => int_truediv x y
  | Some x, Some y => fx ← to_float x; fy ← to_float y; float_truediv fx fy
  | _, _ =>
      Raise (Exn TypeError
               ("unsupported operand type(s) for /: '" ++ type_name a ++ "' and '"
                ++ type_name b ++ "'")%string EmptyString)
  end.

(** The signed mantissa of a finite float. *)
Definition signed (s : bool) (m : positive) : Z :=
  if s then Zneg m else Zpos m.

(** [int(f)] on a float: truncation towards zero. *)
Definition int_of_float (f : spec_float) : result Z :=
  match f with
  | S754_zero _ => Ok 0
  | S754_finite s m e =>
      Ok (if 0 <=? e then signed s m * 2 ^ e else signed s m ÷ 2 ^ (- e))
  | S754_infinity _ => Raise (Exn OverflowError "cannot convert float infinity to integer" EmptyString)
  | S754_nan => Raise (Exn ValueError "cannot convert float NaN to integer" EmptyString)
  end.


(** A float literal [n/d], for instance [0.01] as [float_lit 1 100]: the
    decimal is rounded to the nearest float. *)
Definition float_lit (n d : Z) : spec_float :=
  SFdiv prec emax (exact_of_Z n) (exact_of_Z d).

(** *** Dictionaries *)

(** The operations of an insertion-ordered [dict] with string keys, over
    any type of values. *)

(** [k in d]. *)
Definition dict_mem {V : Type} (k : string) (d : list (string * V)) : bool :=
  bool_decide (k ∈ d.*1).

(** [d[k]], [None] for a [KeyError]. *)
Fixpoint dict_get {V : Type} (k : string) (d : list (string * V)) : option V :=
  match d with
  | [] => None
  | (k', v) :: d' => if decide (k' = k) then Some v else dict_get k d'
  end.

(** [d[k] = v]: an existing key keeps its position, a new one goes last. *)
Fixpoint dict_set {V : Type} (k : string) (v : V) (d : list (string * V))
    : list (string * V) :=
  match d with
  | [] => [(k, v)]
  | (k', v') :: d' => if decide (k' = k) then (k, v) :: d' else (k', v') :: dict_set k v d'
  end.

(** [list(d.keys())]. *)
Definition dict_keys {V : Type} (d : list (string * V)) : list string := d.*1.

(** [d.update(u)]. *)
Definition dict_update {V : Type} (d u : list (string * V)) : list (string * V) :=
  foldl (fun acc kv => dict_set kv.1 kv.2 acc) d u.

(** [copy.deepcopy]: a structurally equal value sharing nothing with its
    argument. *)
Fixpoint deepcopy (v : value) : value :=
  match v with
  | VList l => VList (map deepcopy l)
  | VDict d => VDict (map (fun kv => (kv.1, deepcopy kv.2)) d)
  | _ => v
  end.

Definition deepcopy_dict (d : dict) : dict :=
  map (fun kv => (kv.1, deepcopy kv.2)) d.

(** *** Tracebacks *)

(** An exception that leaves the statement at [line] of [func] gets that
    frame in front of the frames it already has. *)
Definition at_line {A : Type} (line : nat) (func : string) (m : result A) : result A :=
  match m with
  | Ok a => Ok a
  | Raise e => Raise (Exn (exn_class e) (exn_msg e) (frame line func ++ exn_tb e)%string)
  end.

(** ** What the file imports *)

(** numpy, as far as the file uses it.  An [ndarray] is the list of its
    elements, of a type [num] that holds real and complex numbers alike. *)
Class Numpy := {
  num : Type;
  (** the scalar [0], cast to an element *)
  num_zero : num;
  (** [np.fft.irfft] *)
  irfft : list num -> result (list num);
  (** [a - b] on arrays and on scalars *)
  arr_sub : list num -> list num -> result (list num);
  num_sub : num -> num -> result num;
  (** [np.abs], [x ** k] for a Python number [k], [np.sum] *)
  np_abs : num -> num;
  np_pow : num -> value -> num;
  np_sum : list num -> num
}.

(** [KS_order.KS] and [KS_order.KSAssim], as far as the file uses them: the
    constructors, the attributes read and written, and the methods called.
    Every call may raise. *)
Class Solver `{Numpy} := {
  KS : Type;
  KSAssim : Type;
  (** [KS(dt=dt, N=N, lambda2=lambda2, timestepper=timestepper)] *)
  KS_new : value -> value -> value -> value -> result KS;
  (** [true.xspec = ...; true.x = ...] *)
  KS_set_state : KS -> list num -> list num -> KS;
  KS_xspec : KS -> list num;
  KS_getattr : KS -> string -> result num;
  KS_advance : KS -> result KS;
  (** [KSAssim] called with [projector, N=N, mu=mu, alpha=alpha, dt=dt,
      timestepper=timestepper, order=order, estimate_params=estimate_params]
      followed by the items of [initial_guess] as keyword arguments *)
  KSAssim_new : (list num -> result (list num))
                -> value -> value -> value -> value -> value -> value
                -> list string -> dict -> result KSAssim;
  KSAssim_xspec : KSAssim -> list num;
  KSAssim_getattr : KSAssim -> string -> result num;
  KSAssim_error : KSAssim -> KS -> result num;
  KSAssim_set_target : KSAssim -> list num -> result KSAssim;
  KSAssim_advance : KSAssim -> result KSAssim
}.

(** ** Metric utilities *)

Section Metrics.
Context `{Numpy}.

(** The start of the slice [a[modes:]] of an array of length [len]: a
    negative index counts from the end, [None] is the beginning. *)
Definition slice_start (modes : value) (len : nat) : result nat :=
  match modes with
  | VNone => Ok O
  | VBool b => Ok (Nat.min (if b then 1 else 0) len)
  | VInt z =>
      Ok (if z <? 0 then Z.to_nat (Z.max 0 (Z.of_nat len + z))
          else Nat.min (Z.to_nat z) len)
  | _ =>
      Raise (Exn TypeError
               "slice indices must be integers or None or have an __index__ method"
               EmptyString)
  end.

(** [a[start:] = 0]. *)
Definition zero_from (start : nat) (a : list num) : list num :=
  take start a ++ replicate (length a - start) num_zero.

(** Lines 17-20. *)
Definition fourier_projector (spec : list num) (modes : value) : result (list num) :=
  let mod_spec := spec in
  start ← at_line 19 "fourier_projector" (slice_start modes (length mod_spec));
  let mod_spec := zero_from start mod_spec in
  at_line 20 "fourier_projector" (irfft mod_spec).

(** Lines 22-23. *)
Definition l2_norm (x : list num) : num :=
  np_pow (np_sum (map (fun c => np_pow (np_abs c) (VInt 2)) x)) (VFloat (float_lit 1 2)).
End Metrics.

(** ** Effects *)

(** What the program does to the world besides returning, in program order:
    [print(...)], [mp.Pool(processes=...)], [np.savez] of a result into a file,
    [index.append(entry)] and [json.dump(index, fp)] into a file opened for
    writing.  [R] is the type of a run's result. *)
Inductive event {R : Type} :=
  | EPrint (args : list value)
  | EPool (processes : Z)
  | ESavez (file : string) (result : R)
  | EAppend (entry : dict)
  | EDump (file : string) (index : list dict).
Arguments event R : clear implicits.

(** ** The per-run simulation loop and its wrapper *)

Section Simulation.
Context `{Solver}.

(** The result of a run: a series per name. *)
Definition run_result : Type := list (string * list num).

(** The parameters of [run_simulation] (line 26-28). *)
Record sim_args := {
  a_initial_guess : value;
  a_mu : value;
  a_dt : value;
  a_alpha : value;
  a_max_t : value;
  a_modes : value;
  a_alpha_scale : value;
  a_mu_scale : value;
  a_order : value;
  a_timestepper : value;
  a_lambda2 : value;
  a_N : value;
  a_start_xspec : option (list num);
  a_start_x : option (list num)
}.

(** The variables of the loop of lines 44-54. *)
Record loop_state := {
  ls_true : KS;
  ls_assimilator : KSAssim;
  ls_interp_errors : list num;
  ls_true_errors : list num;
  ls_param_errors : list (string * list num)
}.

(** One iteration: lines 45-54. *)
Definition loop_body (projector : list num -> result (list num)) (s : loop_state)
    : result loop_state :=
  let fn := "run_simulation"%string in
  target ← at_line 45 fn (projector (KS_xspec (ls_true s)));
  projected_state ← at_line 46 fn (projector (KSAssim_xspec (ls_assimilator s)));
  diff ← at_line 47 fn (arr_sub target projected_state);
  let interp_errors := ls_interp_errors s ++ [l2_norm diff] in
  err ← at_line 48 fn (KSAssim_error (ls_assimilator s) (ls_true s));
  let true_errors := ls_true_errors s ++ [err] in
  param_errors ← at_line 51 fn
    (mapR (fun pa : string * list num =>
             a ← KSAssim_getattr (ls_assimilator s) pa.1;
             t ← KS_getattr (ls_true s) pa.1;
             d ← num_sub a t;
             Ok (pa.1, pa.2 ++ [np_abs d]))
          (ls_param_errors s));
  assimilator ← at_line 52 fn (KSAssim_set_target (ls_assimilator s) target);
  assimilator ← at_line 53 fn (KSAssim_advance assimilator);
  true ← at_line 54 fn (KS_advance (ls_true s));
  Ok {| ls_true := true; ls_assimilator := assimilator;
        ls_interp_errors := interp_errors; ls_true_errors := true_errors;
        ls_param_errors := param_errors |}.

(** The keyword arguments line 37 writes out in its call of [KSAssim]. *)
Definition assimilator_keywords : list string :=
  ["N"; "mu"; "alpha"; "dt"; "timestepper"; "order"; "estimate_params"]%string.

(** [int(max_t/dt)], line 39. *)
Definition max_n_of (max_t dt : value) : result Z :=
  q ← truediv max_t dt; int_of_float q.

(** Lines 26-58.  The items of [initial_guess] are merged into the keyword
    arguments of line 37: the first key of it that is one of them raises
    [TypeError] before [KSAssim] is called.  Python from 3.9 on writes the
    name of the module in front of [KSAssim()]. *)
Definition run_simulation (a : sim_args) : result run_result :=
  let fn := "run_simulation"%string in
  true ← at_line 30 fn (KS_new (a_dt a) (a_N a) (a_lambda2 a) (a_timestepper a));
  let true :=
    match a_start_x a, a_start_xspec a with
    | Some start_x, Some start_xspec => KS_set_state true start_xspec start_x
    | _, _ => true
    end in
  initial_guess ← at_line 35 fn
    (match a_initial_guess a with
     | VDict d => Ok d
     | v => Raise (Exn AttributeError
                     ("'" ++ type_name v ++ "' object has no attribute 'keys'")%string
                     EmptyString)
     end);
  let estimate_params := dict_keys initial_guess in
  let projector := fun spec => fourier_projector spec (a_modes a) in
  assimilator ← at_line 37 fn
    (match find (fun k => bool_decide (k ∈ assimilator_keywords)) estimate_params with
     | Some k =>
         Raise (Exn TypeError
                  ("KSAssim() got multiple values for keyword argument '" ++ k ++ "'")%string
                  EmptyString)
     | None =>
         KSAssim_new projector (a_N a) (a_mu a) (a_alpha a) (a_dt a) (a_timestepper a)
                     (a_order a) estimate_params initial_guess
     end);
  max_n ← at_line 39 fn (max_n_of (a_max_t a) (a_dt a));
  let param_errors := foldl (fun d p => dict_set p [] d) [] estimate_params in
  s ← iterR (Z.to_nat max_n) (loop_body projector)
        {| ls_true := true; ls_assimilator := assimilator;
           ls_interp_errors := []; ls_true_errors := [];
           ls_param_errors := param_errors |};
  let result := ls_param_errors s in
  Ok (dict_update result [("interp_errors"%string, ls_interp_errors s);
                          ("true_errors"%string, ls_true_errors s)]).

(** The keyword arguments every task of a batch gets (line 134). *)
Record batch_kwargs := {
  kw_start_xspec : list num;
  kw_start_x : list num;
  kw_N : value;
  kw_lambda2 : value
}.

Definition kwargs_names : list string :=
  ["start_xspec"; "start_x"; "N"; "lambda2"]%string.

Definition signature_names : list string :=
  ["initial_guess"; "mu"; "dt"; "alpha"; "max_t"; "modes"; "alpha_scale"; "mu_scale";
   "order"; "timestepper"; "lambda2"; "N"; "start_xspec"; "start_x"]%string.

(** The call of [run_simulation] with the items of [params] and of
    [kwargs] as keyword arguments: a key given twice and a
    key that is no parameter raise [TypeError]; a parameter not given takes
    its default.  The items of [kwargs] are merged into those of [params],
    so the key named is the first of [kwargs] that [params] has too; then
    the first key of [params] that is no parameter.  Python from 3.9 on
    writes the name of the module in front of [run_simulation()]. *)
Definition bind_args (params : dict) (kw : batch_kwargs) : result sim_args :=
  let arg k dflt := default dflt (dict_get k params) in
  match find (fun k => bool_decide (k ∈ dict_keys params)) kwargs_names with
  | Some k =>
      Raise (Exn TypeError
               ("run_simulation() got multiple values for keyword argument '" ++ k ++ "'")%string
               EmptyString)
  | None =>
      match find (fun k => bool_decide (k ∉ signature_names)) (dict_keys params) with
      | Some k =>
          Raise (Exn TypeError
                   ("run_simulation() got an unexpected keyword argument '" ++ k ++ "'")%string
                   EmptyString)
      | None =>
          Ok {| a_initial_guess := arg "initial_guess"%string (VDict [("lambda2"%string, VInt 2)]);
                a_mu := arg "mu"%string (VInt 1);
                a_dt := arg "dt"%string (VFloat (float_lit 1 100));
                a_alpha := arg "alpha"%string VNone;
                a_max_t := arg "max_t"%string (VInt 10);
                a_modes := arg "modes"%string (VInt 21);
                a_alpha_scale := arg "alpha_scale"%string VNone;
                a_mu_scale := arg "mu_scale"%string VNone;
                a_order := arg "order"%string (VInt 2);
                a_timestepper := arg "timestepper"%string (VStr "rk3");
                a_lambda2 := kw_lambda2 kw;
                a_N := kw_N kw;
                a_start_xspec := Some (kw_start_xspec kw);
                a_start_x := Some (kw_start_x kw) |}
      end
  end.

(** Lines 60-66.  [except Exception] catches the instances of
    [Exception]; any other exception goes on to the caller. *)
Definition simulation_wrapper (params : dict) (kw : batch_kwargs)
    : list (event run_result) * result (option run_result) :=
  match at_line 62 "simulation_wrapper" (a ← bind_args params kw; run_simulation a) with
  | Ok r => ([], Ok (Some r))
  | Raise e =>
      if is_Exception (exn_class e) then
        let message := format_exc e in
        ([EPrint [VDict params; VStr message]], Ok None)
      else ([], Raise e)
  end.
End Simulation.

(** ** The grid expander *)

(** [itertools.product] of the pools, as the library documents it:
    [result = [[]]], then for each pool
    [result = [x+[y] for x in result for y in pool]]. *)
Definition product {A : Type} (pools : list (list A)) : list (list A) :=
  foldl (fun result pool => x ← result; y ← pool; [x ++ [y]]) [[]] pools.

(** [d[k]] where a missing key raises. *)
Definition getitem {V : Type} (k : string) (d : list (string * V)) : result V :=
  match dict_get k d with
  | Some v => Ok v
  | None => Raise (Exn KeyError k EmptyString)
  end.

(** Lines 113-118: the derived parameters. *)
Definition derive_scaled (input_params : dict) : result dict :=
  let fn := "run_batch"%string in
  if dict_mem "dt" input_params then
    input_params ←
      (if dict_mem "mu_scale" input_params then
         at_line 115 fn
           (mu_scale ← getitem "mu_scale" input_params;
            dt ← getitem "dt" input_params;
            q ← truediv mu_scale dt;
            Ok (dict_set "mu" (VFloat q) input_params))
       else Ok input_params);
    if dict_mem "alpha_scale" input_params then
      at_line 118 fn
        (alpha_scale ← getitem "alpha_scale" input_params;
         dt ← getitem "dt" input_params;
         q ← truediv alpha_scale dt;
         Ok (dict_set "alpha" (VFloat q) input_params))
    else Ok input_params
  else Ok input_params.

(** Lines 109-111: the combination's values set, in order, on a deep copy
    of the base parameters. *)
Definition overlay (base_params : dict) (params_to_vary : list string) (choice : list value)
    : dict :=
  let input_params := deepcopy_dict base_params in
  foldl (fun d cp => dict_set cp.2 cp.1 d) input_params (zip choice params_to_vary).

(** Lines 109-120: the body of the loop over the combinations. *)
Definition expand_choice (base_params : dict) (params_to_vary : list string)
    (choice : list value) : result dict :=
  derive_scaled (overlay base_params params_to_vary choice).

(** Lines 96-106: the checks made before anything else. *)
Definition check_ranges (base_params : dict) (ranges : list (string * list value))
    : result unit :=
  let fn := "run_batch"%string in
  if bool_decide (length ranges = 0%nat) then
    Raise (raised RuntimeWarning "No parameter ranges specified - nothing to do!" 98 fn)
  else if dict_mem "mu_scale" base_params && dict_mem "mu" ranges then
    Raise (raised ValueError "Cannot both set mu_scale and vary mu!" 104 fn)
  else if dict_mem "alpha_scale" base_params && dict_mem "alpha" ranges then
    Raise (raised ValueError "Cannot both set alpha_scale and vary alpha!" 106 fn)
  else Ok ().

(** Lines 96-120: the list [param_list] that [run_batch] builds. *)
Definition param_grid (base_params : dict) (ranges : list (string * list value))
    : result (list dict) :=
  _ ← check_ranges base_params ranges;
  let params_to_vary := dict_keys ranges in
  pools ← at_line 108 "run_batch" (mapR (fun p => getitem p ranges) params_to_vary);
  mapR (expand_choice base_params params_to_vary) (product pools).

(** ** The batch orchestrator *)

Section Batch.
Context `{Numpy}.
(** The type of a run's result, and what [pool.imap] yields for a task:
    the value [func] returned for it in a worker process. *)
Context {R : Type} (func : dict -> option R).
(** [mp.cpu_count()]. *)
Context (cpu_count : Z).

(** The attributes of a [BatchSimulator] (lines 80-84). *)
Record BatchSimulator := {
  start_x : list num;
  start_xspec : list num;
  outdir : string;
  N : value;
  lambda2 : value
}.

(** [pool.imap(func, iterable)]: the results in the order of the tasks. *)
Definition pool_imap (iterable : list dict) : list (option R) :=
  func <$> iterable.

Definition results_file (self : BatchSimulator) (i : nat) : string :=
  (outdir self ++ "/results_" ++ pretty i ++ ".npz")%string.

Definition index_file (self : BatchSimulator) : string :=
  (outdir self ++ "/index.json")%string.

Definition success_entry (params : dict) (filename : string) : dict :=
  [("succeded"%string, VBool true); ("params"%string, VDict params);
   ("filename"%string, VStr filename)].

Definition failure_entry (params : dict) : dict :=
  [("succeded"%string, VBool false); ("params"%string, VDict params);
   ("error"%string, VStr EmptyString)].

Definition progress_message (done total : nat) : string :=
  ("Completed " ++ pretty done ++ " of " ++ pretty total
   ++ " simulations, saving index file.")%string.

(** Lines 137-152: the loop over the results, from counter [i] and list
    [index] on; it returns the final [index]. *)
Fixpoint consume (self : BatchSimulator) (param_list : list dict)
    (results : list (option R)) (i : nat) (index : list dict)
    : list (event R) * result (list dict) :=
  match results with
  | [] => ([], Ok index)
  | result :: rest =>
      match param_list !! i with
      | None =>
          ([], Raise (raised IndexError "list index out of range" 141 "run_simulations_low"))
      | Some params =>
          let '(saved, entry) :=
            match result with
            | Some r =>
                let filename := results_file self i in
                ([ESavez filename r], success_entry params filename)
            | None => ([], failure_entry params)
            end in
          let index := index ++ [entry] in
          let i := S i in
          let checkpoint :=
            if bool_decide ((i + 1) `mod` 10 = 0)%nat then
              [EPrint [VStr (progress_message (i + 1) (length param_list))];
               EDump (index_file self) index]
            else [] in
          let '(log, out) := consume self param_list rest i index in
          (saved ++ [EAppend entry] ++ checkpoint ++ log, out)
      end
  end.

(** Lines 124-156. *)
Definition run_simulations_low (self : BatchSimulator) (param_list : list dict)
    (n_jobs : option Z) : list (event R) * result unit :=
  let n_jobs :=
    match n_jobs with
    | None => 3 * cpu_count / 4
    | Some n => n
    end in
  let n_simulations := Z.of_nat (length param_list) in
  let processes := Z.min (Z.max 1 n_jobs) n_simulations in
  if processes <? 1 then
    ([], Raise (Exn ValueError "Number of processes must be at least 1"
                    (frame 133 "run_simulations_low")))
  else
    let '(log, out) := consume self param_list (pool_imap param_list) 0 [] in
    match out with
    | Raise e => (EPool processes :: log, Raise e)
    | Ok index =>
        (EPool processes :: log
           ++ [EPrint [VStr ("Completed all " ++ pretty (length param_list)
                             ++ " simulations, saving index file.")%string];
               EDump (index_file self) index],
         Ok ())
    end.

(** Lines 96-122.  [grid] and [n_jobs] are parameters of the method. *)
Definition run_batch (self : BatchSimulator) (base_params : dict)
    (ranges : list (string * list value)) (grid : bool) (n_jobs : option Z)
    : list (event R) * result unit :=
  match param_grid base_params ranges with
  | Raise e => ([], Raise e)
  | Ok param_list =>
      let '(log, out) := run_simulations_low self param_list None in
      (EPrint [VList (VDict <$> param_list)] :: log, at_line 122 "run_batch" out)
  end.
End Batch.

(** ** The constructor of the batch *)

(** *** Strings and truth values *)

(** A [str] is the list of its code points, those below 256. *)

(** [c.isspace()] on one character. *)
Definition is_space (c : ascii) : bool :=
  let n := N_of_ascii c in
  ((9 <=? n) && (n <=? 13) || (28 <=? n) && (n <=? 32) || (n =? 133) || (n =? 160))%N.

(** [c.lower()] on one character. *)
Definition lower_char (c : ascii) : ascii :=
  let n := N_of_ascii c in
  if ((65 <=? n) && (n <=? 90) || (192 <=? n) && (n <=? 222) && negb (n =? 215))%N
  then ascii_of_N (n + 32) else c.

(** [s.lower()]. *)
Fixpoint lower (s : string) : string :=
  match s with
  | EmptyString => EmptyString
  | String c s' => String (lower_char c) (lower s')
  end.

(** [s.lstrip()], [s.rstrip()] and [s.strip()]. *)
Fixpoint lstrip (s : string) : string :=
  match s with
  | EmptyString => EmptyString
  | String c s' => if is_space c then lstrip s' else s
  end.

Fixpoint rstrip (s : string) : string :=
  match s with
  | EmptyString => EmptyString
  | String c s' =>
      match rstrip s' with
      | EmptyString => if is_space c then EmptyString else String c EmptyString
      | t => String c t
      end
  end.

Definition strip (s : string) : string := lstrip (rstrip s).

(** [bool(v)]. *)
Definition truthy (v : value) : bool :=
  match v with
  | VNone => false
  | VBool b => b
  | VInt z => negb (z =? 0)
  | VFloat f => negb (is_zero f)
  | VStr s => match s with EmptyString => false | _ => true end
  | VList l => match l with [] => false | _ => true end
  | VDict d => match d with [] => false | _ => true end
  end.

(** *** What the constructor imports *)

(** What lines 76 and 80 need of [KS_order.KS] besides [Solver]: the
    constructor called as [KS(lambda2=lambda2, N=N, dt=warmup_dt)], without a
    time stepper, and the attribute [x]. *)
Class Warmup `{Solver} := {
  KS_warmup : value -> value -> value -> result KS;
  KS_x : KS -> list num
}.

(** The operating system and the terminal, as the constructor meets them:
    [os.path.exists] at the time of the call, the line [input] reads for a
    prompt, [shutil.rmtree] and [os.makedirs].  Every call but the first
    may raise. *)
Class OS := {
  os_path_exists : string -> bool;
  builtin_input : string -> result string;
  shutil_rmtree : string -> result unit;
  os_makedirs : string -> result unit
}.

(** *** Effects of the constructor *)

(** The calls made, in program order. *)
Inductive os_event :=
  | OInput (prompt : string)
  | OPrint (line : string)
  | ORmtree (path : string)
  | OMakedirs (path : string).

(** A computation that logs its calls and may raise. *)
Record io (A : Type) := IO {
  io_log : list os_event;
  io_out : result A
}.
Arguments IO {A} io_log io_out.
Arguments io_log {A} _.
Arguments io_out {A} _.

#[global] Instance io_ret : MRet io := fun A a => IO [] (Ok a).
#[global] Instance io_bind : MBind io := fun A B k m =>
  match io_out m with
  | Ok a => IO (io_log m ++ io_log (k a)) (io_out (k a))
  | Raise e => IO (io_log m) (Raise e)
  end.

(** A computation without effect on the world, and a call that is logged. *)
Definition lift {A : Type} (m : result A) : io A := IO [] m.
Definition call {A : Type} (ev : os_event) (m : result A) : io A := IO [ev] m.

Section Constructor.
Context `{Warmup} `{OS}.

(** The prompt of line 88. *)
Definition prompt (outdir : string) : string :=
  ("Directory " ++ outdir ++ " already exists! Remove [Y/N]? ")%string.

(** Lines 76-78: the warm-up run. *)
Definition warm_up (lambda2 N warmup_time warmup_dt : value) : result KS :=
  let fn := "__init__"%string in
  warmup ← at_line 76 fn (KS_warmup lambda2 N warmup_dt);
  n ← at_line 77 fn (max_n_of warmup_time warmup_dt);
  at_line 78 fn (iterR (Z.to_nat n) KS_advance warmup).

(** Lines 86-92: what is done about a directory that exists. *)
Definition clear_outdir (outdir : string) (overwrite : value) : io unit :=
  let fn := "__init__"%string in
  if os_path_exists outdir then
    _ ← (if negb (truthy overwrite) then
           ans ← call (OInput (prompt outdir)) (at_line 88 fn (builtin_input (prompt outdir)));
           if bool_decide (lower (strip ans) ≠ "y"%string) then
             _ ← call (OPrint "Aborting!") (Ok ());
             lift (Raise (raised SystemExit "0" 91 fn))
           else mret ()
         else mret ());
    call (ORmtree outdir) (at_line 92 fn (shutil_rmtree outdir))
  else mret ().

(** Lines 72-94. *)
Definition init (outdir : string) (lambda2 N warmup_time warmup_dt overwrite : value)
    : io BatchSimulator :=
  let fn := "__init__"%string in
  warmup ← lift (warm_up lambda2 N warmup_time warmup_dt);
  let self := {| start_x := KS_x warmup; start_xspec := KS_xspec warmup;
                 outdir := outdir; N := N; lambda2 := lambda2 |} in
  _ ← clear_outdir outdir overwrite;
  _ ← call (OMakedirs outdir) (at_line 93 fn (os_makedirs outdir));
  _ ← call (OPrint "Initialized the chaotic initial state.") (Ok ());
  mret self.
End Constructor.

(** ** The vocabulary of the specification *)

(** *** The grid *)

(** The number of combinations of axes of sizes [ns]. *)
Definition grid_size (ns : list nat) : nat := foldr Nat.mul 1%nat ns.

(** The position of the combination that takes element [idx_j] of axis [j]:
    the number whose mixed-radix digits are [idx], the last axis being the
    least significant one. *)
Definition rank (ns idx : list nat) : nat :=
  foldl (fun acc ni => (acc * ni.1 + ni.2)%nat) 0%nat (zip ns idx).

(** [choice] holds element [idx_j] of pool [j], for every [j]. *)
Definition selects {A : Type} (pools : list (list A)) (idx : list nat) (choice : list A) : Prop :=
  Forall3 (fun pool i c => pool !! i = Some c) pools idx choice.

(** What [derive_scaled] does for one scale form and its raw form. *)
Definition derived (scale raw : string) (input out : dict) : Prop :=
  if dict_mem "dt" input && dict_mem scale input then
    exists s dt q,
      dict_get scale out = Some s /\ dict_get "dt" out = Some dt /\
      truediv s dt = Ok q /\ dict_get raw out = Some (VFloat q)
  else dict_get raw out = dict_get raw input.

(** Both the scale form and the raw form of a gain are given for the batch,
    each in the base parameters or in the ranges. *)
Definition both_forms_given (scale raw : string) (base : dict)
    (ranges : list (string * list value)) : Prop :=
  (scale ∈ base.*1 \/ scale ∈ ranges.*1) /\ (raw ∈ base.*1 \/ raw ∈ ranges.*1).

(** *** Logs *)

(** The entries appended to [index], in order: the in-memory Index. *)
Definition appended {R : Type} (log : list (event R)) : list dict :=
  omap (fun ev => match ev with EAppend entry => Some entry | _ => None end) log.

(** The snapshots written to disk, in order. *)
Definition dumps {R : Type} (log : list (event R)) : list (string * list dict) :=
  omap (fun ev => match ev with EDump file index => Some (file, index) | _ => None end) log.

(** The numbers of entries of the snapshots written to disk, in order. *)
Definition snapshot_sizes {R : Type} (log : list (event R)) : list nat :=
  (fun d => length d.2) <$> dumps log.

(** The sizes of the worker pools created. *)
Definition pools_created {R : Type} (log : list (event R)) : list Z :=
  omap (fun ev => match ev with EPool n => Some n | _ => None end) log.

(** The flag an index entry carries under [key]. *)
Definition entry_flag (key : string) (entry : dict) : option bool :=
  match dict_get key entry with
  | Some (VBool b) => Some b
  | _ => None
  end.

(** The number of entries of [index] whose flag under [key] is [b]. *)
Definition count_flag (key : string) (b : bool) (index : list dict) : nat :=
  length (filter (fun entry => entry_flag key entry = Some b) index).

Section BatchVocabulary.
Context `{Numpy} {R : Type} (func : dict -> option R) (cpu_count : Z).

(** The entry appended for task [i]. *)
Definition entry_of (self : BatchSimulator) (i : nat) (params : dict) (result : option R)
    : dict :=
  match result with
  | Some _ => success_entry params (results_file self i)
  | None => failure_entry params
  end.

(** What is written for task [i] before its entry is appended. *)
Definition saved (self : BatchSimulator) (i : nat) (result : option R) : list (event R) :=
  match result with
  | Some r => [ESavez (results_file self i) r]
  | None => []
  end.

(** The checkpoint made once the counter has reached [i]. *)
Definition checkpoint (self : BatchSimulator) (total i : nat) (index : list dict)
    : list (event R) :=
  if bool_decide ((i + 1) `mod` 10 = 0)%nat then
    [EPrint [VStr (progress_message (i + 1) total)]; EDump (index_file self) index]
  else [].

(** The entries of the tasks [ps], the first of which is task [i]. *)
Fixpoint entries_from (self : BatchSimulator) (i : nat) (ps : list dict) : list dict :=
  match ps with
  | [] => []
  | p :: ps' => entry_of self i p (func p) :: entries_from self (S i) ps'
  end.

(** The pool size asked for. *)
Definition pool_size (n_jobs : option Z) (n_simulations : nat) : Z :=
  Z.min (Z.max 1 (default (3 * cpu_count / 4) n_jobs)) (Z.of_nat n_simulations).
End BatchVocabulary.

(** *** The run *)

(** [np.fft.irfft] returns [2 * (m - 1)] numbers for [m] coefficients. *)
Definition irfft_length_law (np : Numpy) : Prop :=
  forall (a out : list (@num np)),
    @irfft np a = Ok out -> length out = (2 * (length a - 1))%nat.

(** [t] occurs in [s]. *)
Definition contains (s t : string) : Prop :=
  exists pre post, s = (pre ++ t ++ post)%string.

(** Every series of the loop state has [k] elements. *)
Definition series_length `{Solver} (k : nat) (s : loop_state) : Prop :=
  length (ls_interp_errors s) = k /\
  length (ls_true_errors s) = k /\
  Forall (fun pa => length pa.2 = k) (ls_param_errors s).

(** ** An instance of the interfaces *)

(** A small executable instance, to run the definitions on concrete
    inputs: the numbers are integers, and [irfft] is defined on the zero
    spectrum, whose transform is the zero signal. *)
Definition toy_numpy : Numpy := {|
  num := Z;
  num_zero := 0;
  irfft a :=
    if decide (length a < 2)%nat then
      Raise (Exn ValueError "Invalid number of FFT data points (0) specified." EmptyString)
    else if forallb (Z.eqb 0) a then Ok (replicate (2 * (length a - 1)) 0)
    else Raise (Exn (OtherError "NotImplementedError") EmptyString EmptyString);
  arr_sub a b :=
    if decide (length a = length b) then Ok (zip_with Z.sub a b)
    else Raise (Exn ValueError "operands could not be broadcast together" EmptyString);
  num_sub a b := Ok (a - b);
  np_abs := Z.abs;
  np_pow x k :=
    match k with
    | VInt n => x ^ n
    | _ => Z.sqrt x
    end;
  np_sum := foldr Z.add 0
|}.

(** A solver at rest: the state is the zero spectrum of three modes, the
    objects count the steps taken, and [advance] of the reference
    trajectory raises [fault] when there is one. *)
Definition toy_solver (fault : option exn) : @Solver toy_numpy :=
  @Build_Solver toy_numpy nat nat
    (fun _ _ _ _ => Ok O)
    (fun k _ _ => k)
    (fun _ => [0; 0; 0])
    (fun _ _ => Ok 1)
    (fun k => match fault with
              | Some e => Raise e
              | None => Ok (S k)
              end)
    (fun _ _ _ _ _ _ _ _ _ => Ok O)
    (fun _ => [0; 0; 0])
    (fun _ _ => Ok 2)
    (fun _ _ => Ok 0)
    (fun a _ => Ok a)
    (fun a => Ok (S a)).

Definition toy_self : @BatchSimulator toy_numpy :=
  @Build_BatchSimulator toy_numpy [0; 0; 0; 0] [0; 0; 0] "test" (VInt 256) (VInt 1).

Definition toy_kwargs : @batch_kwargs toy_numpy :=
  @Build_batch_kwargs toy_numpy [0; 0; 0] [0; 0; 0; 0] (VInt 256) (VInt 1).

(** The task function of a batch on the toy solver: the value the wrapper
    returns, or no result where it lets an exception through. *)
Definition toy_func (params : dict) : option (@run_result toy_numpy) :=
  match (simulation_wrapper (H0 := toy_solver None) params toy_kwargs).2 with
  | Ok r => r
  | Raise _ => None
  end.

(** The batch of the file's [__main__] block (line 160). *)
Definition main_base : dict := [("initial_guess"%string, VDict [("lambda2"%string, VInt 2)])].

Definition main_ranges : list (string * list value) :=
  [("mu_scale"%string, [VFloat (float_lit 8 10); VFloat (float_lit 18 10)]);
   ("alpha_scale"%string, [VFloat (float_lit 1 100); VFloat (float_lit 1 10)]);
   ("dt"%string, [VFloat (float_lit 1 100); VFloat (float_lit 1 1000);
                  VFloat (float_lit 1 10000)])].

(** ** Concrete inputs *)

(** The list [run_batch] builds for the batch of the [__main__] block. *)
Definition main_grid : list dict :=
  Eval vm_compute in
    match param_grid main_base main_ranges with
    | Ok param_list => param_list
    | Raise _ => []
    end.

Definition main_first : dict := Eval vm_compute in default [] (main_grid !! 0%nat).

(** A batch that sets [mu_scale] and varies [mu]. *)
Definition rejected_base : dict := [("mu_scale"%string, VFloat (float_lit 8 10))].
Definition rejected_ranges : list (string * list value) :=
  [("mu"%string, [VFloat (float_lit 1 1); VFloat (float_lit 2 1)])].

(** A batch that sets [mu] and varies [mu_scale]. *)
Definition accepted_base : dict :=
  [("max_t"%string, VFloat (float_lit 5 100)); ("mu"%string, VFloat (float_lit 1 1))].
Definition accepted_ranges : list (string * list value) :=
  [("mu_scale"%string, [VFloat (float_lit 8 10); VFloat (float_lit 18 10)]);
   ("dt"%string, [VFloat (float_lit 1 100)])].

(** Two tasks: the first runs five steps, the second has a step size that
    is no number and fails. *)
Definition two_tasks : list dict :=
  [[("max_t"%string, VFloat (float_lit 5 100))]; [("dt"%string, VStr "fast")]].

Definition two_tasks_log : list (event (@run_result toy_numpy)) :=
  Eval vm_compute in (run_simulations_low toy_func 8 toy_self two_tasks None).1.

(** Forty tasks of five steps each. *)
Definition forty_tasks : list dict :=
  replicate 40 [("max_t"%string, VFloat (float_lit 5 100))].

(** [Ctrl-C] while a run is under way. *)
Definition interrupt : exn := Exn KeyboardInterrupt EmptyString EmptyString.

(** A failure of the solver. *)
Definition blow_up : exn := Exn (OtherError "FloatingPointError") "overflow" EmptyString.

(** Arguments of [run_simulation] for five steps, and for a total time
    before the start. *)
Definition five_steps_args : @sim_args toy_numpy :=
  Eval vm_compute in
    match bind_args
            [("max_t"%string, VFloat (float_lit 5 100))] toy_kwargs with
    | Ok a => a
    | Raise _ =>
        Build_sim_args VNone VNone VNone VNone VNone VNone VNone VNone VNone VNone VNone VNone
                       None None
    end.


Definition five_steps_result : @run_result toy_numpy :=
  Eval vm_compute in
    match run_simulation (H0 := toy_solver None) five_steps_args with
    | Ok r => r
    | Raise _ => []
    end.

(** ** More vocabulary *)

(** The files [np.savez] wrote, in order. *)
Definition saved_files {R : Type} (log : list (event R)) : list string :=
  omap (fun ev => match ev with ESavez file _ => Some file | _ => None end) log.


(** The files written, by [np.savez] or as the index, in order. *)
Definition written_files {R : Type} (log : list (event R)) : list string :=
  omap (fun ev => match ev with
                  | ESavez file _ => Some file
                  | EDump file _ => Some file
                  | _ => None
                  end) log.

(** The positions, counted from [i], of the tasks of [ps] that have a
    result. *)
Fixpoint successes {R : Type} (func : dict -> option R) (i : nat) (ps : list dict) : list nat :=
  match ps with
  | [] => []
  | p :: ps' => match func p with Some _ => [i] | None => [] end ++ successes func (S i) ps'
  end.

(** [k] is a key of the base parameters or a varied key: a key of every
    set the combinations are overlaid on. *)
Definition given (base : dict) (ranges : list (string * list value)) (k : string) : Prop :=
  k ∈ dict_keys base \/ k ∈ dict_keys ranges.

(** The raw form of [scale] is computed for every combination: [dt] and
    [scale] are given. *)
Definition computed (scale : string) (base : dict) (ranges : list (string * list value))
    : Prop :=
  given base ranges "dt" /\ given base ranges scale.

(** The division of lines 115 and 118 has a result on [input_params], where
    it is made. *)
Definition divisible (scale : string) (input_params : dict) : Prop :=
  dict_mem "dt" input_params = true -> dict_mem scale input_params = true ->
  exists s dt q,
    dict_get scale input_params = Some s /\ dict_get "dt" input_params = Some dt /\
    truediv s dt = Ok q.

(** The number zero: [0], [0.0], [-0.0] or [False]. *)
Definition is_zero_number (v : value) : bool :=
  match as_number v with
  | Some (inl z) => z =? 0
  | Some (inr f) => is_zero f
  | None => false
  end.

(** All the characters of [s] are white space. *)
Definition blank (s : string) : bool :=
  forallb is_space (list_ascii_of_string s).

(** ** More instances and inputs *)

(** A terminal that answers [answer], and a file system where the
    directory exists or not and every call succeeds. *)
Definition toy_os (there : bool) (answer : string) : OS := {|
  os_path_exists _ := there;
  builtin_input _ := Ok answer;
  shutil_rmtree _ := Ok ();
  os_makedirs _ := Ok ()
|}.

Definition toy_warmup : @Warmup toy_numpy (toy_solver None) :=
  @Build_Warmup toy_numpy (toy_solver None)
    (fun _ _ _ => @Ok nat O)
    (fun _ => [0; 0; 0; 0]).

(** A batch with an axis without values, and one whose only step size is
    zero. *)
Definition empty_axis_ranges : list (string * list value) :=
  [("mu_scale"%string, [VFloat (float_lit 8 10)]); ("dt"%string, [])].

Definition zero_dt_ranges : list (string * list value) :=
  [("mu_scale"%string, [VFloat (float_lit 8 10)]); ("dt"%string, [VFloat (S754_zero false)])].

Definition zero_dt_choice : list value :=
  [VFloat (float_lit 8 10); VFloat (S754_zero false)].

(** A batch that varies [mu] and gives [mu_scale] and [dt] in the ranges. *)
Definition overwriting_ranges : list (string * list value) :=
  [("mu"%string, [VFloat (float_lit 1 1); VFloat (float_lit 2 1)]);
   ("mu_scale"%string, [VFloat (float_lit 3 1)]);
   ("dt"%string, [VFloat (float_lit 1 1)])].

(** The ParameterSet [mu = 3.0], [mu_scale = 3.0], [dt = 1.0]. *)
Definition overwritten_set : dict :=
  Eval vm_compute in
    [("mu"%string, VFloat (float_lit 3 1)); ("mu_scale"%string, VFloat (float_lit 3 1));
     ("dt"%string, VFloat (float_lit 1 1))].

(** The answer [ Y ] to the prompt, and the constructor of the [__main__]
    block (line 159) where the directory exists and that answer is given. *)
Definition yes_answer : string := " Y ".

Definition main_init : io (@BatchSimulator toy_numpy) :=
  Eval vm_compute in
    @init toy_numpy (toy_solver None) toy_warmup (toy_os true yes_answer)
      "test" (VInt 1) (VInt 256) (VFloat (float_lit 1 1000)) (VFloat (float_lit 1 10000))
      (VBool false).

(** ** Facts about results *)

Lemma bind_Ok {A B : Type} (f : A -> result B) (m : result A) (b : B) :
  m ≫= f = Ok b <-> exists a, m = Ok a /\ f a = Ok b.
Proof.
  destruct m as [a|e]; simpl; split.
  - intros Hf. exists a. auto.
  - intros (a' & Ha & Hf). congruence.
  - discriminate.
  - intros (a' & Ha & _). discriminate.
Qed.

Lemma at_line_Ok {A : Type} line func (m : result A) (a : A) :
  at_line line func m = Ok a <-> m = Ok a.
Proof. destruct m; simpl; split; congruence. Qed.

Lemma mapR_Forall2 {A B : Type} (f : A -> result B) (l : list A) (l' : list B) :
  mapR f l = Ok l' <-> Forall2 (fun x y => f x = Ok y) l l'.
Proof.
  revert l'. induction l as [|x l IH]; intros l'; simpl.
  - split.
    + intros [= <-]. constructor.
    + intros Hl. apply Forall2_nil_inv_l in Hl. by subst.
  - rewrite bind_Ok. split.
    + intros (y & Hy & Hrest). apply bind_Ok in Hrest as (ys & Hys & [= <-]).
      constructor; [done | by apply IH].
    + intros Hl. apply Forall2_cons_inv_l in Hl as (y & ys & Hy & Hys & ->).
      exists y. split; [done|]. apply bind_Ok. exists ys. split; [by apply IH | done].
Qed.

(** ** Facts about dictionaries *)

Section DictFacts.
Context {V : Type}.
Implicit Types (d : list (string * V)) (k : string) (v : V).

Lemma dict_mem_true k d : dict_mem k d = true <-> k ∈ d.*1.
Proof. unfold dict_mem. by rewrite bool_decide_eq_true. Qed.

Lemma dict_mem_false k d : dict_mem k d = false <-> k ∉ d.*1.
Proof. unfold dict_mem. by rewrite bool_decide_eq_false. Qed.

Lemma dict_get_None k d : dict_get k d = None <-> k ∉ d.*1.
Proof.
  induction d as [|[k' v'] d IH]; simpl.
  - split; [intros _; apply not_elem_of_nil | done].
  - rewrite not_elem_of_cons. destruct (decide (k' = k)) as [->|Hne].
    + split; [done | by intros [Hne _]].
    + rewrite IH. naive_solver.
Qed.

Lemma dict_get_is_Some k d : is_Some (dict_get k d) <-> k ∈ d.*1.
Proof.
  rewrite <-not_eq_None_Some, dict_get_None.
  split; [apply dec_stable | auto].
Qed.

Lemma dict_get_set_eq k v d : dict_get k (dict_set k v d) = Some v.
Proof.
  induction d as [|[k' v'] d IH]; simpl.
  - by rewrite decide_True.
  - case_decide; simpl; [by rewrite decide_True | by rewrite decide_False].
Qed.

Lemma dict_get_set_ne k k' v d : k ≠ k' -> dict_get k' (dict_set k v d) = dict_get k' d.
Proof.
  intros Hne. induction d as [|[k0 v0] d IH]; simpl.
  - by rewrite decide_False.
  - repeat (case_decide; simpl); congruence.
Qed.

Lemma dict_set_keys k v d :
  (dict_set k v d).*1 = if bool_decide (k ∈ d.*1) then d.*1 else d.*1 ++ [k].
Proof.
  induction d as [|[k' v'] d IH]; csimpl; [done|].
  destruct (decide (k' = k)) as [->|Hne]; csimpl.
  - by rewrite bool_decide_eq_true_2 by set_solver.
  - rewrite IH. destruct (decide (k ∈ d.*1)) as [Hin|Hin].
    + by rewrite !bool_decide_eq_true_2 by set_solver.
    + by rewrite !bool_decide_eq_false_2 by set_solver.
Qed.

Lemma dict_set_elem_of k k' v d : k' ∈ (dict_set k v d).*1 <-> k' = k \/ k' ∈ d.*1.
Proof.
  rewrite dict_set_keys. case_bool_decide.
  - naive_solver.
  - rewrite elem_of_app, list_elem_of_singleton. naive_solver.
Qed.
End DictFacts.

Lemma deepcopy_id : forall v, deepcopy v = v.
Proof.
  fix IH 1. intros [ | | | | |l|d]; simpl; try reflexivity.
  - f_equal. induction l as [|x l IHl]; simpl; [done|]. by rewrite IH, IHl.
  - f_equal. induction d as [|[k x] d IHd]; simpl; [done|]. by rewrite IH, IHd.
Qed.

Lemma deepcopy_dict_id (d : dict) : deepcopy_dict d = d.
Proof.
  unfold deepcopy_dict. induction d as [|[k x] d IH]; simpl; [done|].
  by rewrite deepcopy_id, IH.
Qed.

(** ** Facts about the Cartesian product *)

Section Product.
Context {A : Type}.
Implicit Types (pools : list (list A)) (pool : list A) (idx : list nat).

Lemma bind_singleton_fmap {B C : Type} (f : B -> C) (l : list B) :
  (y ← l; [f y]) = f <$> l.
Proof. induction l as [|y l IH]; csimpl; [done | by rewrite IH]. Qed.

Lemma product_snoc pools pool :
  product (pools ++ [pool]) = x ← product pools; (fun y => x ++ [y]) <$> pool.
Proof.
  unfold product. rewrite foldl_snoc. apply list_bind_ext; [|done].
  intros x. apply bind_singleton_fmap.
Qed.

Lemma length_bind_const {B C : Type} (f : B -> list C) (l : list B) (n : nat) :
  (forall x, length (f x) = n) -> length (l ≫= f) = (length l * n)%nat.
Proof.
  intros Hf. induction l as [|x l IH]; csimpl; [done|].
  by rewrite length_app, Hf, IH.
Qed.

Lemma lookup_bind_const {B C : Type} (f : B -> list C) (l : list B) (n i j : nat) x :
  (forall x, length (f x) = n) -> l !! i = Some x -> (j < n)%nat ->
  (l ≫= f) !! (i * n + j)%nat = f x !! j.
Proof.
  intros Hf. revert i. induction l as [|x0 l IH]; intros i Hi Hj; [done|].
  rewrite bind_cons. destruct i as [|i]; simpl in *.
  - injection Hi as ->. apply lookup_app_l. by rewrite Hf.
  - rewrite lookup_app_r by (rewrite Hf; lia).
    rewrite Hf. replace (n + i * n + j - n)%nat with (i * n + j)%nat by lia.
    by apply IH.
Qed.

Lemma grid_size_snoc ns n : grid_size (ns ++ [n]) = (grid_size ns * n)%nat.
Proof.
  unfold grid_size. induction ns as [|m ns IH]; simpl; [lia|]. rewrite IH. lia.
Qed.

Lemma rank_snoc ns n idx i :
  length ns = length idx -> rank (ns ++ [n]) (idx ++ [i]) = (rank ns idx * n + i)%nat.
Proof.
  intros Hlen. unfold rank.
  rewrite zip_with_app by done.
  change (zip [n] [i]) with [(n, i)]. by rewrite foldl_snoc.
Qed.

Lemma length_product pools : length (product pools) = grid_size (length <$> pools).
Proof.
  induction pools as [|pool pools IH] using rev_ind; [done|].
  rewrite product_snoc, fmap_app.
  change (length <$> [pool]) with [length pool]. rewrite grid_size_snoc.
  rewrite (length_bind_const _ _ (length pool)); [by rewrite IH|].
  intros x. apply length_fmap.
Qed.

Lemma product_lookup pools idx choice :
  selects pools idx choice ->
  product pools !! rank (length <$> pools) idx = Some choice.
Proof.
  unfold selects. revert idx choice.
  induction pools as [|pool pools IH] using rev_ind; intros idx choice Hsel.
  - inversion Hsel; subst. done.
  - apply Forall3_app_inv_l in Hsel as (idx1 & idx2 & ch1 & ch2 & -> & -> & H1 & H2).
    apply Forall3_cons_inv_l in H2 as (i & idx3 & c & ch3 & -> & -> & Hi & H3).
    inversion H3; subst.
    rewrite fmap_app. change (length <$> [pool]) with [length pool].
    rewrite rank_snoc.
    2:{ rewrite length_fmap. by apply Forall3_length_lm in H1. }
    rewrite product_snoc.
    rewrite (lookup_bind_const _ _ (length pool) _ _ ch1).
    + rewrite list_lookup_fmap, Hi. done.
    + intros x. apply length_fmap.
    + by apply IH.
    + by apply lookup_lt_Some in Hi.
Qed.

Lemma rank_lt ns idx : Forall2 lt idx ns -> (rank ns idx < grid_size ns)%nat.
Proof.
  revert idx. induction ns as [|n ns IH] using rev_ind; intros idx Hidx.
  - apply Forall2_nil_inv_r in Hidx as ->. unfold rank, grid_size. simpl. lia.
  - apply Forall2_app_inv_r in Hidx as (idx1 & idx2 & H1 & H2 & ->).
    apply Forall2_cons_inv_r in H2 as (i & idx3 & Hi & H3 & ->).
    apply Forall2_nil_inv_r in H3 as ->.
    rewrite rank_snoc, grid_size_snoc by (symmetry; by eapply Forall2_length).
    specialize (IH _ H1). nia.
Qed.

Lemma rank_inj ns idx idx' :
  Forall2 lt idx ns -> Forall2 lt idx' ns -> rank ns idx = rank ns idx' -> idx = idx'.
Proof.
  revert idx idx'. induction ns as [|n ns IH] using rev_ind; intros idx idx' Hidx Hidx' Heq.
  - apply Forall2_nil_inv_r in Hidx as ->. by apply Forall2_nil_inv_r in Hidx' as ->.
  - apply Forall2_app_inv_r in Hidx as (idx1 & idx2 & H1 & H2 & ->).
    apply Forall2_cons_inv_r in H2 as (i & idx3 & Hi & H3 & ->).
    apply Forall2_nil_inv_r in H3 as ->.
    apply Forall2_app_inv_r in Hidx' as (idx1' & idx2' & H1' & H2' & ->).
    apply Forall2_cons_inv_r in H2' as (i' & idx3' & Hi' & H3' & ->).
    apply Forall2_nil_inv_r in H3' as ->.
    rewrite !rank_snoc in Heq by (symmetry; by eapply Forall2_length).
    assert (rank ns idx1 = rank ns idx1' /\ i = i') as [Hr ->].
    { apply (Nat.div_mod_unique n); [done | done | lia]. }
    f_equal. by apply IH.
Qed.

Lemma rank_surj ns k :
  (k < grid_size ns)%nat -> exists idx, Forall2 lt idx ns /\ rank ns idx = k.
Proof.
  revert k. induction ns as [|n ns IH] using rev_ind; intros k Hk.
  - exists []. split; [constructor|]. unfold grid_size in Hk. simpl in Hk.
    unfold rank. simpl. lia.
  - rewrite grid_size_snoc in Hk.
    assert (0 < n)%nat as Hn by nia.
    destruct (IH (k / n)%nat) as (idx & Hidx & Hrank).
    { apply Nat.Div0.div_lt_upper_bound. lia. }
    exists (idx ++ [(k mod n)%nat]). split.
    + apply Forall2_app; [done|]. constructor; [|constructor].
      apply Nat.mod_upper_bound. lia.
    + rewrite rank_snoc by (symmetry; by eapply Forall2_length).
      rewrite Hrank. pose proof (Nat.div_mod_eq k n). lia.
Qed.

Lemma selects_exists pools idx :
  Forall2 lt idx (length <$> pools) -> exists choice, selects pools idx choice.
Proof.
  unfold selects. revert idx. induction pools as [|pool pools IH]; intros idx Hidx.
  - apply Forall2_nil_inv_r in Hidx as ->. exists []. constructor.
  - rewrite fmap_cons in Hidx.
    apply Forall2_cons_inv_r in Hidx as (i & idx' & Hi & Hidx' & ->).
    destruct (IH _ Hidx') as (choice & Hch).
    destruct (lookup_lt_is_Some_2 pool i Hi) as [c Hc].
    exists (c :: choice). by constructor.
Qed.

Lemma selects_valid pools idx choice :
  selects pools idx choice -> Forall2 lt idx (length <$> pools).
Proof.
  unfold selects. induction 1 as [|pool i c pools idx choice Hc _ IH]; csimpl.
  - constructor.
  - constructor; [|done]. by apply lookup_lt_Some in Hc.
Qed.

Lemma product_lookup_inv pools k choice :
  product pools !! k = Some choice ->
  exists idx, selects pools idx choice /\ rank (length <$> pools) idx = k.
Proof.
  intros Hk. assert (k < grid_size (length <$> pools))%nat as Hlt.
  { rewrite <-length_product. by apply lookup_lt_Some in Hk. }
  destruct (rank_surj _ _ Hlt) as (idx & Hidx & Hrank).
  destruct (selects_exists _ _ Hidx) as (choice' & Hsel).
  pose proof (product_lookup _ _ _ Hsel) as Hlook.
  rewrite Hrank, Hk in Hlook. injection Hlook as ->. eauto.
Qed.
End Product.

(** ** Facts about the grid expander *)

Lemma getitem_Ok {V : Type} (k : string) (d : list (string * V)) (v : V) :
  getitem k d = Ok v <-> dict_get k d = Some v.
Proof. unfold getitem. destruct (dict_get k d); split; congruence. Qed.

Lemma dict_get_NoDup {V : Type} (d : list (string * V)) (k : string) (v : V) :
  NoDup d.*1 -> (k, v) ∈ d -> dict_get k d = Some v.
Proof.
  induction d as [|[k' v'] d IH]; csimpl; intros Hnd Hin.
  - by apply elem_of_nil in Hin.
  - apply NoDup_cons in Hnd as [Hk' Hnd].
    apply elem_of_cons in Hin as [[= -> ->]|Hin].
    + by rewrite decide_True.
    + rewrite decide_False; [by apply IH|].
      intros ->. apply Hk'. apply list_elem_of_fmap. by exists (k, v).
  Qed.

(** The pools of a well-formed [ranges] are its values, in order. *)
Lemma pools_of_ranges {V : Type} (ranges : list (string * V)) :
  NoDup ranges.*1 ->
  mapR (fun p => getitem p ranges) (dict_keys ranges) = Ok ranges.*2.
Proof.
  intros Hnd. apply mapR_Forall2. unfold dict_keys.
  apply Forall2_fmap, Forall_Forall2_diag, Forall_forall.
  intros [k v] Hin. apply getitem_Ok. by apply dict_get_NoDup.
Qed.

Lemma param_grid_Ok (base : dict) (ranges : list (string * list value)) (param_list : list dict) :
  NoDup ranges.*1 ->
  param_grid base ranges = Ok param_list <->
  check_ranges base ranges = Ok () /\
  Forall2 (fun choice out => expand_choice base ranges.*1 choice = Ok out)
          (product ranges.*2) param_list.
Proof.
  intros Hnd. unfold param_grid. rewrite pools_of_ranges by done. simpl.
  rewrite <-mapR_Forall2. destruct (check_ranges base ranges) as [[]|e]; simpl.
  - naive_solver.
  - split; [done | by intros [? _]].
Qed.

Lemma overlay_frame (d : dict) (keys : list string) (choice : list value) (k : string) :
  k ∉ keys ->
  dict_get k (foldl (fun d cp => dict_set cp.2 cp.1 d) d (zip choice keys)) = dict_get k d.
Proof.
  revert d choice. induction keys as [|p keys IH]; intros d choice Hk.
  - by destruct choice.
  - destruct choice as [|c choice]; [done|]. simpl.
    apply not_elem_of_cons in Hk as [Hne Hk].
    rewrite IH by done. by apply dict_get_set_ne.
Qed.

Lemma overlay_get (d : dict) (keys : list string) (choice : list value) j p c :
  NoDup keys -> keys !! j = Some p -> choice !! j = Some c ->
  dict_get p (foldl (fun d cp => dict_set cp.2 cp.1 d) d (zip choice keys)) = Some c.
Proof.
  revert d choice j. induction keys as [|p0 keys IH]; intros d choice j Hnd Hp Hc; [done|].
  destruct choice as [|c0 choice]; [done|]. simpl.
  apply NoDup_cons in Hnd as [Hp0 Hnd].
  destruct j as [|j]; simpl in *.
  - injection Hp as ->. injection Hc as ->.
    rewrite overlay_frame by done. apply dict_get_set_eq.
  - by eapply IH.
Qed.

Lemma dict_mem_set {V : Type} (k k' : string) (v : V) (d : list (string * V)) :
  k ≠ k' -> dict_mem k' (dict_set k v d) = dict_mem k' d.
Proof.
  intros Hne. unfold dict_mem. apply bool_decide_ext.
  rewrite dict_set_elem_of. naive_solver.
Qed.

Lemma derive_scaled_Ok (input out : dict) :
  derive_scaled input = Ok out ->
  (forall k, k ≠ "mu"%string -> k ≠ "alpha"%string -> dict_get k out = dict_get k input) /\
  derived "mu_scale" "mu" input out /\
  derived "alpha_scale" "alpha" input out /\
  (dict_mem "dt" input = false -> out = input).
Proof.
  unfold derive_scaled, derived.
  destruct (dict_mem "dt" input) eqn:Hdt; simpl; [|by intros [= ->]].
  intros Hout. apply bind_Ok in Hout as (mid & Hmid & Hout).
  assert ((forall k, k ≠ "mu"%string -> dict_get k mid = dict_get k input) /\
          (forall k, k ≠ "mu"%string -> dict_mem k mid = dict_mem k input) /\
          if dict_mem "mu_scale" input then
            exists s dt q, dict_get "mu_scale" input = Some s /\
              dict_get "dt" input = Some dt /\ truediv s dt = Ok q /\
              dict_get "mu" mid = Some (VFloat q)
          else mid = input) as (Hmid_get & Hmid_mem & Hmu).
  { destruct (dict_mem "mu_scale" input); [|injection Hmid as <-; done].
    apply at_line_Ok, bind_Ok in Hmid as (s & Hs & Hmid).
    apply bind_Ok in Hmid as (dt & Hd & Hmid).
    apply bind_Ok in Hmid as (q & Hq & [= <-]).
    apply getitem_Ok in Hs, Hd. split_and!.
    - intros k Hk. by apply dict_get_set_ne.
    - intros k Hk. by apply dict_mem_set.
    - exists s, dt, q. split_and!; try done. apply dict_get_set_eq. }
  rewrite (Hmid_mem "alpha_scale"%string) in Hout by done.
  assert ((forall k, k ≠ "alpha"%string -> dict_get k out = dict_get k mid) /\
          if dict_mem "alpha_scale" input then
            exists s dt q, dict_get "alpha_scale" mid = Some s /\
              dict_get "dt" mid = Some dt /\ truediv s dt = Ok q /\
              dict_get "alpha" out = Some (VFloat q)
          else out = mid) as (Hout_get & Halpha).
  { destruct (dict_mem "alpha_scale" input); [|injection Hout as <-; done].
    apply at_line_Ok, bind_Ok in Hout as (s & Hs & Hout).
    apply bind_Ok in Hout as (dt & Hd & Hout).
    apply bind_Ok in Hout as (q & Hq & [= <-]).
    apply getitem_Ok in Hs, Hd. split.
    - intros k Hk. by apply dict_get_set_ne.
    - exists s, dt, q. split_and!; try done. apply dict_get_set_eq. }
  split_and!; [| | |done].
  - intros k Hk1 Hk2. by rewrite Hout_get, Hmid_get.
  - destruct (dict_mem "mu_scale" input).
    + destruct Hmu as (s & dt & q & Hs & Hd & Hq & Hget).
      exists s, dt, q. rewrite !Hout_get, !Hmid_get by done. done.
    + subst mid. by apply Hout_get.
  - destruct (dict_mem "alpha_scale" input).
    + destruct Halpha as (s & dt & q & Hs & Hd & Hq & Hget).
      exists s, dt, q. rewrite !Hout_get by done. done.
    + subst out. by apply Hmid_get.
Qed.

Lemma product_NoDup {A : Type} (pools : list (list A)) :
  Forall NoDup pools -> NoDup (product pools).
Proof.
  intros Hpools. apply NoDup_alt. intros k1 k2 choice H1 H2.
  destruct (product_lookup_inv _ _ _ H1) as (idx1 & Hsel1 & <-).
  destruct (product_lookup_inv _ _ _ H2) as (idx2 & Hsel2 & <-).
  f_equal. clear H1 H2. revert idx2 Hsel2. unfold selects in *.
  induction Hsel1 as [|pool i c pools idx choice Hc _ IH]; intros idx2 Hsel2.
  - by inversion Hsel2.
  - apply Forall3_cons_inv_l in Hsel2 as (i' & idx' & c' & ch' & -> & [= <- <-] & Hc' & Hsel2).
    apply Forall_cons in Hpools as [Hpool Hpools].
    f_equal; [|by apply IH].
    eapply NoDup_lookup; eauto.
Qed.

(** C2.  Every element [out] of the list [run_batch] builds comes from a
    combination [choice]; when the base overlaid with [choice] defines [dt]
    and [mu_scale], the [mu] entry of [out] is exactly the float
    [mu_scale / dt], whatever [mu] was before; likewise [alpha] from
    [alpha_scale]; and when it does not define [dt], [out] is the overlaid
    set unchanged. *)
Theorem run_batch_derived_parameters (base : dict) (ranges : list (string * list value))
    (param_list : list dict) (k : nat) (out : dict) :
  NoDup ranges.*1 ->
  param_grid base ranges = Ok param_list ->
  param_list !! k = Some out ->
  exists choice,
    product ranges.*2 !! k = Some choice /\
    let input_params := overlay base ranges.*1 choice in
    (dict_mem "dt" input_params = true -> dict_mem "mu_scale" input_params = true ->
     exists mu_scale dt q,
       dict_get "mu_scale" input_params = Some mu_scale /\
       dict_get "dt" input_params = Some dt /\
       dict_get "mu_scale" out = Some mu_scale /\ dict_get "dt" out = Some dt /\
       truediv mu_scale dt = Ok q /\ dict_get "mu" out = Some (VFloat q)) /\
    (dict_mem "dt" input_params = true -> dict_mem "alpha_scale" input_params = true ->
     exists alpha_scale dt q,
       dict_get "alpha_scale" input_params = Some alpha_scale /\
       dict_get "dt" input_params = Some dt /\
       dict_get "alpha_scale" out = Some alpha_scale /\ dict_get "dt" out = Some dt /\
       truediv alpha_scale dt = Ok q /\ dict_get "alpha" out = Some (VFloat q)) /\
    (dict_mem "dt" input_params = false -> out = input_params).
Proof.
  intros Hnd Hgrid Hk.
  apply param_grid_Ok in Hgrid as [_ Hall]; [|done].
  destruct (Forall2_lookup_r _ _ _ _ _ Hall Hk) as (choice & Hch & Hexp).
  exists choice. split; [done|]. intros input_params.
  unfold expand_choice in Hexp. fold input_params in Hexp.
  apply derive_scaled_Ok in Hexp as (Hsame & Hmu & Halpha & Hdt).
  unfold derived in Hmu, Halpha. split_and!; [| |done].
  - intros Hd Hs. rewrite Hd, Hs in Hmu. destruct Hmu as (s & dt & q & H1 & H2 & H3 & H4).
    exists s, dt, q. rewrite <-!Hsame by done. done.
  - intros Hd Hs. rewrite Hd, Hs in Halpha.
    destruct Halpha as (s & dt & q & H1 & H2 & H3 & H4).
    exists s, dt, q. rewrite <-!Hsame by done. done.
Qed.

(** C4, amended.  [run_batch] raises, with nothing done before (no print,
    no pool, no run): [RuntimeWarning] when [ranges] is empty, [ValueError]
    when [mu_scale] is a base parameter and [mu] is varied, [ValueError] when
    [alpha_scale] is a base parameter and [alpha] is varied.  In every other
    case the checks pass. *)
Theorem run_batch_configuration_errors `{Numpy} {R : Type} (func : dict -> option R)
    (cpu_count : Z) (self : BatchSimulator) (grid : bool) (n_jobs : option Z)
    (base : dict) (ranges : list (string * list value)) :
  let outcome := run_batch func cpu_count self base ranges grid n_jobs in
  (ranges = [] ->
   exists e, outcome = ([], Raise e) /\ exn_class e = RuntimeWarning) /\
  (ranges ≠ [] -> "mu_scale"%string ∈ base.*1 -> "mu"%string ∈ ranges.*1 ->
   exists e, outcome = ([], Raise e) /\ exn_class e = ValueError) /\
  (ranges ≠ [] -> "alpha_scale"%string ∈ base.*1 -> "alpha"%string ∈ ranges.*1 ->
   exists e, outcome = ([], Raise e) /\ exn_class e = ValueError) /\
  (ranges ≠ [] ->
   ¬ ("mu_scale"%string ∈ base.*1 /\ "mu"%string ∈ ranges.*1) ->
   ¬ ("alpha_scale"%string ∈ base.*1 /\ "alpha"%string ∈ ranges.*1) ->
   check_ranges base ranges = Ok ()).
Proof.
  intros outcome. subst outcome. unfold run_batch, param_grid, check_ranges.
  split_and!.
  - intros ->. simpl. eauto.
  - intros Hne Hs Hr. rewrite bool_decide_eq_false_2 by (by destruct ranges).
    apply dict_mem_true in Hs, Hr. rewrite Hs, Hr. simpl. eauto.
  - intros Hne Hs Hr. rewrite bool_decide_eq_false_2 by (by destruct ranges).
    apply dict_mem_true in Hs, Hr. rewrite Hs, Hr.
    destruct (dict_mem "mu_scale" base && dict_mem "mu" ranges); simpl; eauto.
  - intros Hne Hmu Halpha. rewrite bool_decide_eq_false_2 by (by destruct ranges).
    destruct (dict_mem "mu_scale" base && dict_mem "mu" ranges) eqn:E1.
    { apply andb_true_iff in E1 as [?%dict_mem_true ?%dict_mem_true]. tauto. }
    destruct (dict_mem "alpha_scale" base && dict_mem "alpha" ranges) eqn:E2.
    { apply andb_true_iff in E2 as [?%dict_mem_true ?%dict_mem_true]. tauto. }
    done.
Qed.

(** ** Facts about the loop over the results *)

Section BatchFacts.
Context `{Numpy} {R : Type} (func : dict -> option R) (cpu_count : Z).
Implicit Types (self : BatchSimulator) (index : list dict) (log : list (event R)).

Lemma consume_cons self param_list p (r : option R) rest i index :
  param_list !! i = Some p ->
  consume self param_list (r :: rest) i index =
    (saved self i r ++ [EAppend (entry_of self i p r)]
       ++ checkpoint self (length param_list) (S i) (index ++ [entry_of self i p r])
       ++ (consume self param_list rest (S i) (index ++ [entry_of self i p r])).1,
     (consume self param_list rest (S i) (index ++ [entry_of self i p r])).2).
Proof.
  intros Hp. simpl. rewrite Hp. unfold entry_of, saved, checkpoint.
  destruct r as [r|];
    by destruct (consume self param_list rest (S i) _).
Qed.

Lemma drop_cons_inv {A : Type} (l : list A) (i : nat) (x : A) (l' : list A) :
  drop i l = x :: l' -> l !! i = Some x /\ drop (S i) l = l'.
Proof.
  intros Hd. assert (l !! i = Some x) as Hx.
  { rewrite <-(Nat.add_0_r i), <-lookup_drop, Hd. done. }
  split; [done|]. rewrite (drop_S _ _ _ Hx) in Hd. congruence.
Qed.

Lemma length_entries_from self i ps : length (entries_from func self i ps) = length ps.
Proof. revert i. induction ps as [|p ps IH]; intros i; simpl; [done | by rewrite IH]. Qed.

Lemma lookup_entries_from self i ps j :
  entries_from func self i ps !! j = (fun p => entry_of self (i + j) p (func p)) <$> ps !! j.
Proof.
  revert i j. induction ps as [|p ps IH]; intros i j; [done|].
  destruct j as [|j]; simpl.
  - by rewrite Nat.add_0_r.
  - rewrite IH. by replace (S i + j)%nat with (i + S j)%nat by lia.
Qed.

(** The loop never fails on the tasks of its own list, and its final
    [index] holds one entry per task, in the order of the tasks. *)
Lemma consume_Ok self param_list ps i index :
  drop i param_list = ps ->
  (consume self param_list (func <$> ps) i index).2
    = Ok (index ++ entries_from func self i ps) /\
  appended (consume self param_list (func <$> ps) i index).1 = entries_from func self i ps /\
  pools_created (consume self param_list (func <$> ps) i index).1 = [].
Proof.
  revert i index. induction ps as [|p ps IH]; intros i index Hd.
  - simpl. by rewrite app_nil_r.
  - apply drop_cons_inv in Hd as [Hp Hd].
    rewrite fmap_cons, (consume_cons _ _ p) by done. cbn [fst snd].
    destruct (IH (S i) (index ++ [entry_of self i p (func p)]) Hd) as (Hout & Happ & Hpool).
    split_and!.
    + rewrite Hout. simpl. by rewrite <-app_assoc.
    + unfold appended in *. rewrite !omap_app, Happ.
      unfold saved, checkpoint. cbn [entries_from].
      destruct (func p); case_bool_decide; simpl; done.
    + unfold pools_created in *. rewrite !omap_app, Hpool.
      unfold saved, checkpoint. destruct (func p); case_bool_decide; simpl; done.
Qed.

(** Every periodic snapshot is the index as it stands after some task
    [k], written when [(k + 1) % 10 == 0] for the counter [k] already
    incremented. *)
Lemma consume_dumps self param_list ps i index file snapshot :
  drop i param_list = ps ->
  (file, snapshot) ∈ dumps (consume self param_list (func <$> ps) i index).1 ->
  file = index_file self /\
  exists k, (k <= length ps)%nat /\ (1 <= k)%nat /\
    snapshot = index ++ take k (entries_from func self i ps) /\
    ((i + k + 1) `mod` 10 = 0)%nat.
Proof.
  revert i index. induction ps as [|p ps IH]; intros i index Hd Hin.
  - simpl in Hin. by apply elem_of_nil in Hin.
  - apply drop_cons_inv in Hd as [Hp Hd].
    rewrite fmap_cons, (consume_cons _ _ p) in Hin by done. cbn [fst snd] in Hin.
    unfold dumps in Hin. rewrite !omap_app in Hin.
    apply elem_of_app in Hin as [Hin|Hin].
    { unfold saved in Hin. destruct (func p); simpl in Hin; by apply elem_of_nil in Hin. }
    apply elem_of_app in Hin as [Hin|Hin].
    { simpl in Hin. by apply elem_of_nil in Hin. }
    apply elem_of_app in Hin as [Hin|Hin].
    + unfold checkpoint in Hin. case_bool_decide as Hmod; simpl in Hin.
      * apply list_elem_of_singleton in Hin as [= -> ->]. split; [done|].
        exists 1%nat. simpl. split_and!; [lia | lia | done |].
        by replace (i + 1 + 1)%nat with (S i + 1)%nat by lia.
      * by apply elem_of_nil in Hin.
    + apply (IH _ _ Hd) in Hin as (-> & k & Hk & Hk1 & -> & Hmod). split; [done|].
      exists (S k). simpl. split_and!; [lia | lia | by rewrite <-app_assoc |].
      by replace (i + S k + 1)%nat with (S i + k + 1)%nat by lia.
Qed.

(** Task [j]'s artifact is written immediately before its entry is
    appended, after the entries of the [j] tasks before it. *)
Lemma consume_order self param_list ps i index j p :
  drop i param_list = ps ->
  ps !! j = Some p ->
  exists before after,
    (consume self param_list (func <$> ps) i index).1
      = before ++ saved self (i + j) (func p)
          ++ [EAppend (entry_of self (i + j) p (func p))] ++ after /\
    length (appended before) = j.
Proof.
  revert i index j. induction ps as [|p0 ps IH]; intros i index j Hd Hj; [done|].
  apply drop_cons_inv in Hd as [Hp Hd].
  rewrite fmap_cons, (consume_cons _ _ p0) by done. cbn [fst snd].
  destruct j as [|j]; simpl in Hj.
  - injection Hj as ->. exists [], (checkpoint self (length param_list) (S i)
      (index ++ [entry_of self i p (func p)])
      ++ (consume self param_list (func <$> ps) (S i)
            (index ++ [entry_of self i p (func p)])).1).
    rewrite Nat.add_0_r. done.
  - destruct (IH (S i) (index ++ [entry_of self i p0 (func p0)]) j Hd Hj)
      as (before & after & Hlog & Hlen).
    exists (saved self i (func p0) ++ [EAppend (entry_of self i p0 (func p0))]
            ++ checkpoint self (length param_list) (S i)
                 (index ++ [entry_of self i p0 (func p0)]) ++ before), after.
    split.
    + rewrite Hlog. replace (S i + j)%nat with (i + S j)%nat by lia.
      by rewrite <-!app_assoc.
    + unfold appended in *. rewrite !omap_app, !length_app, Hlen.
      unfold saved, checkpoint. destruct (func p0); case_bool_decide; simpl; lia.
Qed.
End BatchFacts.

(** ** Facts about the orchestrator *)

Section OrchestratorFacts.
Context `{Numpy} {R : Type} (func : dict -> option R) (cpu_count : Z).
Implicit Types (self : BatchSimulator) (index : list dict) (log : list (event R)).

Lemma pool_size_pos n_jobs n : n ≠ 0%nat -> 1 <= pool_size cpu_count n_jobs n.
Proof. unfold pool_size. lia. Qed.

Lemma run_simulations_low_eq self param_list n_jobs :
  param_list ≠ [] ->
  run_simulations_low func cpu_count self param_list n_jobs =
    (EPool (pool_size cpu_count n_jobs (length param_list))
       :: (consume self param_list (pool_imap func param_list) 0 []).1
       ++ [EPrint [VStr ("Completed all " ++ pretty (length param_list)
                         ++ " simulations, saving index file.")%string];
           EDump (index_file self) (entries_from func self 0 param_list)],
     Ok ()).
Proof.
  intros Hne. unfold run_simulations_low.
  assert (length param_list ≠ 0%nat) as Hlen by (by destruct param_list).
  pose proof (pool_size_pos n_jobs _ Hlen) as Hpos. unfold pool_size in Hpos.
  destruct (consume_Ok func self param_list param_list 0 []) as (Hout & _); [done|].
  unfold pool_imap in *. unfold pool_size.
  destruct n_jobs as [n|]; simpl in *;
    (destruct (_ <? 1) eqn:Hlt; [lia|]);
    destruct (consume self param_list (func <$> param_list) 0 []) as [log out];
    simpl in *; subst out; done.
Qed.

Lemma run_simulations_low_nil self n_jobs :
  exists e, run_simulations_low func cpu_count self [] n_jobs = ([], Raise e) /\
            exn_class e = ValueError.
Proof.
  unfold run_simulations_low. simpl.
  replace (Z.max 1 _ `min` 0) with 0 by lia. simpl. eauto.
Qed.

Lemma count_flag_total key index :
  (forall entry, entry ∈ index -> is_Some (entry_flag key entry)) ->
  (count_flag key true index + count_flag key false index)%nat = length index.
Proof.
  unfold count_flag. induction index as [|entry index IH]; intros Hall; [done|].
  assert (length (filter (fun e => entry_flag key e = Some true) index)
          + length (filter (fun e => entry_flag key e = Some false) index)
          = length index)%nat as IH'.
  { apply IH. intros e He. apply Hall. by right. }
  rewrite !filter_cons. destruct (Hall entry) as [[] Hb]; [by left| |].
  - rewrite Hb. rewrite decide_True by done. rewrite decide_False by done.
    simpl. lia.
  - rewrite Hb. rewrite decide_False by done. rewrite decide_True by done.
    simpl. lia.
Qed.

Lemma appended_run self param_list n_jobs :
  param_list ≠ [] ->
  appended (run_simulations_low func cpu_count self param_list n_jobs).1
    = entries_from func self 0 param_list.
Proof.
  intros Hne. rewrite run_simulations_low_eq by done. cbn [fst].
  destruct (consume_Ok func self param_list param_list 0 []) as (_ & Happ & _); [done|].
  unfold appended, pool_imap in *. simpl. rewrite omap_app, Happ. simpl. apply app_nil_r.
Qed.

(** C7.  Results are consumed in submission order: the [i]-th value the
    pool yields is the result of the [i]-th submitted ParameterSet, the
    [i]-th entry appended to the index carries that ParameterSet under
    [params], and when the run succeeded its result is saved to
    [<outdir>/results_<i>.npz] immediately before that entry, which names
    the file, is appended. *)
Theorem results_consumed_in_submission_order self (param_list : list dict)
    (n_jobs : option Z) (i : nat) (params : dict) :
  param_list !! i = Some params ->
  let log := (run_simulations_low func cpu_count self param_list n_jobs).1 in
  pool_imap func param_list !! i = Some (func params) /\
  (exists entry, appended log !! i = Some entry /\
                 dict_get "params" entry = Some (VDict params)) /\
  match func params with
  | Some result =>
      let filename := (outdir self ++ "/results_" ++ pretty i ++ ".npz")%string in
      exists before after,
        log = before ++ [ESavez filename result;
                         EAppend (success_entry params filename)] ++ after /\
        length (appended before) = i
  | None =>
      exists before after,
        log = before ++ [EAppend (failure_entry params)] ++ after /\
        length (appended before) = i
  end.
Proof.
  intros Hi log. subst log.
  assert (param_list ≠ []) as Hne by (intros ->; done).
  split_and!.
  - unfold pool_imap. by rewrite list_lookup_fmap, Hi.
  - exists (entry_of self i params (func params)). split.
    + rewrite appended_run, lookup_entries_from, Hi by done. done.
    + unfold entry_of. by destruct (func params).
  - rewrite run_simulations_low_eq by done. cbn [fst].
    destruct (consume_order func self param_list param_list 0 [] i params) as
      (before & after & Hlog & Hlen); [done | done |].
    unfold pool_imap. rewrite Hlog. simpl in *.
    unfold saved, entry_of in *. destruct (func params) as [r|].
    + exists (EPool (pool_size cpu_count n_jobs (length param_list)) :: before), (after ++
        [EPrint [VStr ("Completed all " ++ pretty (length param_list)
                         ++ " simulations, saving index file.")%string];
         EDump (index_file self) (entries_from func self 0 param_list)]).
      split; [|done]. simpl. by rewrite <-!app_assoc.
    + exists (EPool (pool_size cpu_count n_jobs (length param_list)) :: before), (after ++
        [EPrint [VStr ("Completed all " ++ pretty (length param_list)
                         ++ " simulations, saving index file.")%string];
         EDump (index_file self) (entries_from func self 0 param_list)]).
      split; [|done]. simpl. by rewrite <-!app_assoc.
Qed.

(** C6, amended.  After a batch of [N] ParameterSets has completed, the
    index, which is what the last write to the index file holds, has exactly
    [N] entries; entry [i] carries the [i]-th ParameterSet under [params]
    and a boolean under the key [succeded], as the code spells it; the
    entries with [succeded] true and those with [succeded] false add up to
    [N]; an entry with [succeded] true carries a [filename] string and an
    entry with [succeded] false an [error] string. *)
Theorem index_completeness self (param_list : list dict) (n_jobs : option Z)
    (log : list (event R)) :
  run_simulations_low func cpu_count self param_list n_jobs = (log, Ok ()) ->
  exists index,
    last log = Some (EDump (index_file self) index) /\
    appended log = index /\
    length index = length param_list /\
    (forall i entry, index !! i = Some entry ->
       exists params,
         param_list !! i = Some params /\
         dict_get "params" entry = Some (VDict params) /\
         exists b, entry_flag "succeded" entry = Some b /\
           if b then exists filename, dict_get "filename" entry = Some (VStr filename)
           else exists message, dict_get "error" entry = Some (VStr message)) /\
    (count_flag "succeded" true index + count_flag "succeded" false index)%nat
      = length param_list.
Proof.
  intros Hrun. destruct (decide (param_list = [])) as [->|Hne].
  { destruct (run_simulations_low_nil self n_jobs) as (e & He & _). congruence. }
  rewrite run_simulations_low_eq in Hrun by done. injection Hrun as <-.
  pose proof (appended_run self param_list n_jobs Hne) as Happ.
  rewrite run_simulations_low_eq in Happ by done. cbn [fst] in Happ.
  set (index := entries_from func self 0 param_list) in *.
  assert (forall i entry, index !! i = Some entry ->
       exists params,
         param_list !! i = Some params /\
         dict_get "params" entry = Some (VDict params) /\
         exists b, entry_flag "succeded" entry = Some b /\
           if b then exists filename, dict_get "filename" entry = Some (VStr filename)
           else exists message, dict_get "error" entry = Some (VStr message)) as Hentries.
  { intros i entry Hi. unfold index in Hi. rewrite lookup_entries_from in Hi.
    destruct (param_list !! i) as [params|] eqn:Hp; [|done].
    injection Hi as <-. exists params. split; [done|].
    unfold entry_of. destruct (func params); simpl.
    - split; [done|]. exists true. split; [done|]. eauto.
    - split; [done|]. exists false. split; [done|]. eauto. }
  exists index. split_and!.
  - by rewrite app_comm_cons, last_app.
  - done.
  - apply length_entries_from.
  - done.
  - rewrite <-(length_entries_from func self 0 param_list). apply count_flag_total.
    intros entry Hin. apply list_elem_of_lookup in Hin as [i Hi].
    destruct (Hentries i entry Hi) as (_ & _ & _ & b & Hb & _). eauto.
Qed.

Lemma pools_created_run self param_list n_jobs :
  param_list ≠ [] ->
  pools_created (run_simulations_low func cpu_count self param_list n_jobs).1
    = [pool_size cpu_count n_jobs (length param_list)].
Proof.
  intros Hne. rewrite run_simulations_low_eq by done. cbn [fst].
  destruct (consume_Ok func self param_list param_list 0 []) as (_ & _ & Hpool); [done|].
  unfold pools_created, pool_imap in *. simpl. rewrite omap_app, Hpool. done.
Qed.

Lemma run_batch_eq self base ranges grid n_jobs param_list :
  param_grid base ranges = Ok param_list ->
  run_batch func cpu_count self base ranges grid n_jobs =
    (EPrint [VList (VDict <$> param_list)]
       :: (run_simulations_low func cpu_count self param_list None).1,
     at_line 122 "run_batch" (run_simulations_low func cpu_count self param_list None).2).
Proof.
  intros Hgrid. unfold run_batch. rewrite Hgrid.
  by destruct (run_simulations_low func cpu_count self param_list None).
Qed.

(** C10.  The [n_jobs] argument of [run_batch] has no effect: the method
    does the same for every value of it; and it creates one pool, of
    [min(max(1, 3 * cpu_count // 4), number of tasks)] processes, when it
    has built a non-empty list of tasks, and none otherwise. *)
Theorem run_batch_pool_size self (base : dict) (ranges : list (string * list value))
    (grid : bool) (n_jobs : option Z) :
  run_batch func cpu_count self base ranges grid n_jobs
    = run_batch func cpu_count self base ranges grid None /\
  pools_created (run_batch func cpu_count self base ranges grid n_jobs).1
    = match param_grid base ranges with
      | Ok (p :: ps) =>
          [Z.min (Z.max 1 (3 * cpu_count / 4)) (Z.of_nat (length (p :: ps)))]
      | _ => []
      end.
Proof.
  split; [done|].
  destruct (param_grid base ranges) as [[|p ps]|e] eqn:Hgrid.
  - rewrite (run_batch_eq _ _ _ _ _ _ Hgrid). cbn [fst].
    by destruct (run_simulations_low_nil self None) as (e & -> & _).
  - rewrite (run_batch_eq _ _ _ _ _ _ Hgrid). cbn [fst].
    change (pools_created (?e :: ?l)) with (pools_created l).
    by rewrite pools_created_run.
  - unfold run_batch. by rewrite Hgrid.
Qed.

(** The periodic snapshots of the loop: each holds [k] entries, the index
    as it stands after task [k], for a [k] with [(k + 1) % 10 == 0]. *)
Lemma periodic_snapshots self (param_list : list dict) (file : string)
    (snapshot : list dict) :
  (file, snapshot)
    ∈ dumps (consume self param_list (pool_imap func param_list) 0 []).1 ->
  file = index_file self /\
  snapshot = take (length snapshot) (entries_from func self 0 param_list) /\
  (length snapshot <= length param_list)%nat /\
  (length snapshot `mod` 10 = 9)%nat.
Proof.
  intros Hin. apply (consume_dumps func self param_list param_list 0 []) in Hin
    as (-> & k & Hk & Hk1 & -> & Hmod); [|done].
  rewrite app_nil_l. change (0 + k + 1)%nat with (k + 1)%nat in Hmod.
  rewrite length_take, length_entries_from.
  replace (k `min` length param_list)%nat with k by lia.
  split_and!; [done | done | lia |].
  pose proof (Nat.div_mod_eq (k + 1) 10) as Hdm. rewrite Hmod in Hdm.
  pose proof (Nat.div_mod_eq k 10) as Hk10.
  pose proof (Nat.mod_upper_bound k 10). lia.
Qed.
End OrchestratorFacts.

(** ** Facts about the metric utilities *)

Section MetricFacts.
Context `{Numpy}.

Lemma length_zero_from (start : nat) (a : list num) :
  length (zero_from start a) = length a.
Proof. unfold zero_from. rewrite length_app, length_take, length_replicate. lia. Qed.

Lemma zero_from_idempotent (start : nat) (a : list num) :
  zero_from start (zero_from start a) = zero_from start a.
Proof.
  unfold zero_from at 1. rewrite length_zero_from.
  unfold zero_from. destruct (decide (start <= length a)%nat) as [Hle|Hgt].
  - rewrite take_app_le by (rewrite length_take; lia).
    by rewrite take_idemp.
  - replace (length a - start)%nat with 0%nat by lia. simpl.
    rewrite !app_nil_r. by rewrite take_idemp.
Qed.

(** C9, amended.  The truncation [fourier_projector] performs is
    idempotent: zeroing the coefficients from [modes] on a second time
    changes nothing, so the projection of an already truncated spectrum is
    the projection of the spectrum. *)
Theorem fourier_projector_truncation_idempotent (spec : list num) (modes : value)
    (start : nat) :
  slice_start modes (length spec) = Ok start ->
  zero_from start (zero_from start spec) = zero_from start spec /\
  fourier_projector (zero_from start spec) modes = fourier_projector spec modes.
Proof.
  intros Hstart. split; [apply zero_from_idempotent|].
  unfold fourier_projector. rewrite length_zero_from, Hstart. simpl.
  by rewrite zero_from_idempotent.
Qed.
End MetricFacts.

(** C9, as stated, fails.  [np.fft.irfft] returns [2 * (m - 1)] numbers for
    [m] coefficients: whatever numpy is, the projection of three coefficients
    has four elements and the projection of those has six. *)
Lemma projection_twice_differs :
  ¬ exists (np : Numpy) (spec once : list (@num np)),
      irfft_length_law np /\ length spec = 3%nat /\
      fourier_projector spec (VInt 21) = Ok once /\
      fourier_projector once (VInt 21) = Ok once.
Proof.
  intros (np & spec & once & Hlaw & Hlen & Honce & Htwice).
  unfold fourier_projector in *. simpl in *.
  apply at_line_Ok in Honce, Htwice.
  apply Hlaw in Honce, Htwice. rewrite length_zero_from in *. lia.
Qed.

(** ** Facts about numbers *)


(** ** Facts about strings *)

Lemma string_app_assoc (s1 s2 s3 : string) :
  ((s1 ++ s2) ++ s3 = s1 ++ s2 ++ s3)%string.
Proof.
  induction s1 as [|c s1 IH]; [done|].
  change (String c ((s1 ++ s2) ++ s3) = String c (s1 ++ s2 ++ s3))%string.
  by rewrite IH.
Qed.

Lemma string_app_nil_r (s : string) : (s ++ EmptyString)%string = s.
Proof.
  induction s as [|c s IH]; [done|].
  change (String c (s ++ EmptyString) = String c s)%string. by rewrite IH.
Qed.

Lemma format_exc_contains (e : exn) :
  contains (format_exc e) (exn_tb e) /\
  contains (format_exc e) (class_name (exn_class e)) /\
  contains (format_exc e) (exn_msg e).
Proof.
  unfold contains, format_exc.
  generalize traceback_header. intros header.
  generalize (class_name (exn_class e)) (exn_tb e). intros cls tb.
  split_and!.
  - by eexists header, _.
  - exists (header ++ tb)%string. eexists. by rewrite string_app_assoc.
  - destruct (decide (exn_msg e = EmptyString)) as [->|Hmsg].
    + exists EmptyString. by eexists.
    + exists (header ++ tb ++ cls ++ ": ")%string. eexists.
      by rewrite !string_app_assoc.
Qed.

(** ** Facts about the per-run loop *)

Section SimulationFacts.
Context `{Solver}.

Lemma loop_body_lengths projector (s s' : loop_state) (k : nat) :
  loop_body projector s = Ok s' ->
  series_length k s ->
  series_length (S k) s' /\ (ls_param_errors s').*1 = (ls_param_errors s).*1.
Proof.
  unfold loop_body, series_length. intros Hbody (Hi & Ht & Hp).
  repeat (apply bind_Ok in Hbody as (? & ?%at_line_Ok & Hbody)).
  injection Hbody as <-. simpl.
  match goal with Hm : mapR _ _ = Ok _ |- _ => apply mapR_Forall2 in Hm; rename Hm into Hmap end.
  rewrite !length_app, Hi, Ht. simpl.
  split_and!; [lia | lia | |].
  - clear -Hmap Hp. induction Hmap as [|pa pa' l l' Hpa _ IH]; [constructor|].
    apply Forall_cons in Hp as [Hlen Hp]. constructor; [|by apply IH].
    repeat (apply bind_Ok in Hpa as (? & ? & Hpa)). injection Hpa as <-. simpl.
    rewrite length_app. simpl. lia.
  - clear -Hmap. induction Hmap as [|pa pa' l l' Hpa _ IH]; [done|].
    csimpl. rewrite IH. f_equal.
    repeat (apply bind_Ok in Hpa as (? & ? & Hpa)). by injection Hpa as <-.
Qed.

Lemma iterR_lengths projector (n : nat) (s s' : loop_state) (k : nat) :
  iterR n (loop_body projector) s = Ok s' ->
  series_length k s ->
  series_length (k + n) s' /\ (ls_param_errors s').*1 = (ls_param_errors s).*1.
Proof.
  revert s k. induction n as [|n IH]; intros s k Hiter Hlen; simpl in Hiter.
  - injection Hiter as <-. by rewrite Nat.add_0_r.
  - apply bind_Ok in Hiter as (s1 & Hbody & Hiter).
    destruct (loop_body_lengths _ _ _ _ Hbody Hlen) as [Hlen1 Hkeys1].
    destruct (IH _ _ Hiter Hlen1) as [Hlen' Hkeys'].
    replace (k + S n)%nat with (S k + n)%nat by lia. split; [done | congruence].
Qed.

Lemma dict_set_Forall {V : Type} (P : V -> Prop) (k : string) (v : V)
    (d : list (string * V)) :
  P v -> Forall (fun kv => P kv.2) d -> Forall (fun kv => P kv.2) (dict_set k v d).
Proof.
  intros Hv. induction 1 as [|[k' v'] d Hkv Hd IH]; simpl.
  - by repeat constructor.
  - destruct (decide (k' = k)); constructor; done.
Qed.


(** [{p : [] for p in estimate_params}]. *)
Lemma empty_series (estimate_params : list string) (d0 : list (string * list num)) :
  Forall (fun pa => pa.2 = []) d0 ->
  let d := foldl (fun d p => dict_set p [] d) d0 estimate_params in
  Forall (fun pa => pa.2 = []) d /\
  forall p, p ∈ estimate_params \/ p ∈ d0.*1 -> p ∈ d.*1.
Proof.
  revert d0. induction estimate_params as [|p0 ps IH]; intros d0 Hd0; simpl.
  - split; [done|]. intros p [Hp|Hp]; [by apply elem_of_nil in Hp | done].
  - destruct (IH (dict_set p0 [] d0)) as [Hall Hkeys].
    { by apply (dict_set_Forall (fun v => v = [])). }
    split; [done|]. intros p Hp. apply Hkeys. rewrite dict_set_elem_of.
    rewrite elem_of_cons in Hp. tauto.
Qed.


(** C5, amended.  When the call of [run_simulation] returns a result, the
    wrapper returns it and prints nothing.  When it raises an instance of
    [Exception], the wrapper prints the ParameterSet and the formatted
    traceback, which holds the class name, the message and the frames, and
    returns [None].  When it raises any other exception, the wrapper lets it
    through.  So [None] is returned only after an exception, and no
    instance of [Exception] ever leaves the wrapper. *)
Theorem simulation_wrapper_outcome (params : dict) (kw : batch_kwargs) :
  let call := a ← bind_args params kw; run_simulation a in
  let log := (simulation_wrapper params kw).1 in
  let out := (simulation_wrapper params kw).2 in
  (forall r, call = Ok r -> out = Ok (Some r) /\ log = []) /\
  (forall e, call = Raise e -> is_Exception (exn_class e) = true ->
     out = Ok None /\
     exists message,
       log = [EPrint [VDict params; VStr message]] /\
       contains message (class_name (exn_class e)) /\
       contains message (exn_msg e) /\
       contains message (exn_tb e)) /\
  (forall e, call = Raise e -> is_Exception (exn_class e) = false ->
     log = [] /\
     exists e', out = Raise e' /\ exn_class e' = exn_class e /\ exn_msg e' = exn_msg e) /\
  (out = Ok None -> exists e, call = Raise e) /\
  (forall e', out = Raise e' -> is_Exception (exn_class e') = false).
Proof.
  intros call log out. subst log out. unfold simulation_wrapper. fold call.
  destruct call as [r|e0]; simpl.
  - split_and!; try congruence. intros r' [= <-]. done.
  - destruct (is_Exception (exn_class e0)) eqn:Hexc; simpl.
    + split_and!; try congruence; [|eauto].
      intros e [= <-] _. split; [done|].
      eexists. split; [done|].
      pose proof (format_exc_contains
        (Exn (exn_class e0) (exn_msg e0)
             (frame 62 "simulation_wrapper" ++ exn_tb e0)%string))
        as (Htb & Hcls & Hmsg). simpl in *.
      split_and!; [done | done |].
      destruct Htb as (pre & post & Htb). unfold contains.
      exists (pre ++ frame 62 "simulation_wrapper")%string, post.
      by rewrite Htb, !string_app_assoc.
    + split_and!; try congruence.
      * intros e [= <-] _. split; [done|]. eauto.
      * intros e' [= <-]. done.
Qed.
End SimulationFacts.

(** ** Facts about the index file and the artifacts *)

Lemma string_app_length (s t : string) :
  String.length (s ++ t)%string = (String.length s + String.length t)%nat.
Proof.
  induction s as [|c s IH]; [done|].
  change (S (String.length (s ++ t)%string) = S (String.length s + String.length t)).
  by rewrite IH.
Qed.

Lemma string_app_inj_r (s t u : string) : (s ++ u = t ++ u)%string -> s = t.
Proof.
  revert t. induction s as [|c s IH]; intros [|c' t] Heq.
  - done.
  - apply (f_equal String.length) in Heq.
    change (String.length u = S (String.length (t ++ u)%string)) in Heq.
    rewrite string_app_length in Heq. lia.
  - apply (f_equal String.length) in Heq.
    change (S (String.length (s ++ u)%string) = String.length u) in Heq.
    rewrite string_app_length in Heq. lia.
  - change (String c (s ++ u) = String c' (t ++ u))%string in Heq.
    injection Heq as -> Heq. f_equal. by apply IH.
Qed.

Section BatchMore.
Context `{Numpy} {R : Type} (func : dict -> option R) (cpu_count : Z).
Implicit Types (self : BatchSimulator) (index : list dict) (log : list (event R)).

Lemma results_file_inj self : Inj (=) (=) (results_file self).
Proof.
  intros i j Heq. unfold results_file in Heq.
  apply String.app_inj, String.app_inj, string_app_inj_r in Heq.
  by apply (inj pretty) in Heq.
Qed.



Lemma consume_saved_files self param_list ps i index :
  drop i param_list = ps ->
  saved_files (consume self param_list (func <$> ps) i index).1
    = results_file self <$> successes func i ps.
Proof.
  revert i index. induction ps as [|p ps IH]; intros i index Hd; [done|].
  apply drop_cons_inv in Hd as [Hp Hd].
  rewrite fmap_cons, (consume_cons _ _ p) by done. cbn [fst snd].
  unfold saved_files in *. rewrite !omap_app, (IH _ _ Hd).
  unfold saved, checkpoint. cbn [successes]. rewrite fmap_app.
  destruct (func p); case_bool_decide; done.
Qed.

Lemma successes_bounds i ps k :
  k ∈ successes func i ps -> (i <= k < i + length ps)%nat.
Proof.
  revert i. induction ps as [|p ps IH]; intros i Hk; simpl in Hk.
  - by apply elem_of_nil in Hk.
  - apply elem_of_app in Hk as [Hk|Hk].
    + destruct (func p); [|by apply elem_of_nil in Hk].
      apply list_elem_of_singleton in Hk as ->. simpl. lia.
    + apply IH in Hk. simpl. lia.
Qed.

Lemma successes_NoDup i ps : NoDup (successes func i ps).
Proof.
  revert i. induction ps as [|p ps IH]; intros i; simpl; [constructor|].
  destruct (func p); simpl; [|done].
  constructor; [|done]. intros Hin%successes_bounds. lia.
Qed.

Lemma successes_lookup i ps k :
  k ∈ successes func i ps <->
  exists p, ps !! (k - i)%nat = Some p /\ (i <= k)%nat /\ is_Some (func p).
Proof.
  revert i. induction ps as [|p ps IH]; intros i; simpl.
  - split; [by intros ?%elem_of_nil | by intros (? & ? & _)].
  - rewrite elem_of_app, IH. split.
    + intros [Hk|(p' & Hp' & Hle & Hsome)].
      * destruct (func p) eqn:Hf; [|by apply elem_of_nil in Hk].
        apply list_elem_of_singleton in Hk as ->. exists p.
        rewrite Nat.sub_diag, Hf. eauto.
      * exists p'. replace (k - i)%nat with (S (k - S i)) by lia. split_and!; [done | lia | done].
    + intros (p' & Hp' & Hle & Hsome). destruct (decide (k = i)) as [->|Hne].
      * left. rewrite Nat.sub_diag in Hp'. injection Hp' as ->.
        destruct Hsome as [r ->]. set_solver.
      * right. exists p'. replace (k - i)%nat with (S (k - S i)) in Hp' by lia.
        split_and!; [done | lia | done].
Qed.

Lemma successes_count self i ps :
  length (successes func i ps)
    = count_flag "succeded" true (entries_from func self i ps).
Proof.
  revert i. induction ps as [|p ps IH]; intros i; [done|].
  cbn [successes entries_from]. unfold count_flag in *.
  rewrite length_app, filter_cons, IH. unfold entry_of.
  destruct (func p); [rewrite decide_True by done | rewrite decide_False by done]; simpl; lia.
Qed.


(** X2.  [run_simulations_low] saves one file per run that has a result:
    the files written by [np.savez] are pairwise distinct, there are as many
    as index entries with [succeded] true, a file is written exactly when it
    is [results_file self i] for a task [i] with a result, and the
    [filename] of every index entry is a file that was written. *)
Theorem artifacts_one_file_per_success self (param_list : list dict) (n_jobs : option Z) :
  param_list ≠ [] ->
  let log := (run_simulations_low func cpu_count self param_list n_jobs).1 in
  NoDup (saved_files log) /\
  length (saved_files log) = count_flag "succeded" true (appended log) /\
  (forall file, file ∈ saved_files log <->
     exists i params, param_list !! i = Some params /\ is_Some (func params) /\
                      file = results_file self i) /\
  (forall entry file, entry ∈ appended log ->
     dict_get "filename" entry = Some (VStr file) -> file ∈ saved_files log).
Proof.
  intros Hne log. subst log. rewrite appended_run by done.
  rewrite run_simulations_low_eq by done. cbn [fst].
  assert (saved_files
            (EPool (pool_size cpu_count n_jobs (length param_list))
             :: (consume self param_list (pool_imap func param_list) 0 []).1 ++
             [EPrint [VStr ("Completed all " ++ pretty (length param_list)
                            ++ " simulations, saving index file.")%string];
              EDump (index_file self) (entries_from func self 0 param_list)])
          = results_file self <$> successes func 0 param_list) as ->.
  { pose proof (consume_saved_files self param_list param_list 0 [] eq_refl) as Hs.
    unfold saved_files, pool_imap in *.
    change (omap ?f (?e :: ?l)) with (omap f l). rewrite omap_app, Hs. simpl.
    apply app_nil_r. }
  assert (forall file, file ∈ results_file self <$> successes func 0 param_list <->
     exists i params, param_list !! i = Some params /\ is_Some (func params) /\
                      file = results_file self i) as Hfiles.
  { intros file. rewrite list_elem_of_fmap. split.
    - intros (i & -> & Hi). apply successes_lookup in Hi as (p & Hp & _ & Hsome).
      rewrite Nat.sub_0_r in Hp. eauto.
    - intros (i & p & Hp & Hsome & ->). exists i. split; [done|].
      apply successes_lookup. exists p. rewrite Nat.sub_0_r. split_and!; [done | lia | done]. }
  split_and!.
  - apply NoDup_fmap_2; [apply results_file_inj | apply successes_NoDup].
  - rewrite length_fmap. apply successes_count.
  - done.
  - intros entry file Hin Hfile. apply Hfiles.
    apply list_elem_of_lookup in Hin as [i Hi]. rewrite lookup_entries_from in Hi.
    destruct (param_list !! i) as [p|] eqn:Hp; [|done]. injection Hi as <-.
    exists i, p. unfold entry_of in Hfile. destruct (func p) eqn:Hf; [|done].
    simpl in Hfile. injection Hfile as <-. eauto.
Qed.

(** X3.  For a non-empty task list, [run_simulations_low] first creates
    one pool and no other; its size is at least 1 and at most the number of
    tasks; an [n_jobs] below 1 gives one process, an [n_jobs] between 1 and
    the number of tasks gives [n_jobs] processes, and a larger one gives one
    process per task. *)
Theorem worker_pool_bounds self (param_list : list dict) (n_jobs : option Z) :
  param_list ≠ [] ->
  exists processes rest,
    (run_simulations_low func cpu_count self param_list n_jobs).1
      = EPool processes :: rest /\
    pools_created rest = [] /\
    1 <= processes <= Z.of_nat (length param_list) /\
    (forall n, n_jobs = Some n ->
       (n < 1 -> processes = 1) /\
       (1 <= n <= Z.of_nat (length param_list) -> processes = n) /\
       (Z.of_nat (length param_list) < n -> processes = Z.of_nat (length param_list))).
Proof.
  intros Hne. rewrite run_simulations_low_eq by done. cbn [fst].
  eexists _, _. split; [done|].
  assert (length param_list ≠ 0%nat) as Hlen by (by destruct param_list).
  split_and!.
  - destruct (consume_Ok func self param_list param_list 0 []) as (_ & _ & Hpool); [done|].
    unfold pools_created, pool_imap in *. by rewrite omap_app, Hpool.
  - unfold pool_size. lia.
  - unfold pool_size. lia.
  - intros n ->. unfold pool_size. simpl. lia.
Qed.
End BatchMore.

Section FilesFacts.
Context `{Numpy} {R : Type} (func : dict -> option R) (cpu_count : Z).
Implicit Types (self : BatchSimulator) (index : list dict) (log : list (event R)).

Lemma consume_written_files self param_list ps i index file :
  drop i param_list = ps ->
  file ∈ written_files (consume self param_list (func <$> ps) i index).1 ->
  file = index_file self \/ exists j, file = results_file self j.
Proof.
  revert i index. induction ps as [|p ps IH]; intros i index Hd Hin.
  - by apply elem_of_nil in Hin.
  - apply drop_cons_inv in Hd as [Hp Hd].
    rewrite fmap_cons, (consume_cons _ _ p) in Hin by done. cbn [fst snd] in Hin.
    unfold written_files in *. rewrite !omap_app in Hin.
    rewrite !elem_of_app in Hin. destruct Hin as [Hin|[Hin|[Hin|Hin]]].
    + unfold saved in Hin. destruct (func p); simpl in Hin; [|by apply elem_of_nil in Hin].
      apply list_elem_of_singleton in Hin. eauto.
    + simpl in Hin. by apply elem_of_nil in Hin.
    + unfold checkpoint in Hin. case_bool_decide; simpl in Hin;
        [|by apply elem_of_nil in Hin].
      apply list_elem_of_singleton in Hin. eauto.
    + by eapply IH.
Qed.

Lemma index_file_no_artifact self (i : nat) : index_file self ≠ results_file self i.
Proof.
  unfold index_file, results_file. intros Heq.
  apply String.app_inj in Heq. discriminate Heq.
Qed.

(** X15.  Every file [run_simulations_low] writes lies in the directory
    [outdir] of the simulator: it is the index file [outdir/index.json] or
    the file [outdir/results_i.npz] of a task [i]; and no task's file is the
    index file. *)
Theorem files_stay_in_outdir self (param_list : list dict) (n_jobs : option Z)
    (file : string) :
  file ∈ written_files (run_simulations_low func cpu_count self param_list n_jobs).1 ->
  (exists name, file = (outdir self ++ "/" ++ name)%string) /\
  (file = index_file self \/ exists i, file = results_file self i) /\
  forall i, results_file self i ≠ index_file self.
Proof.
  intros Hin.
  assert (file = index_file self \/ exists i, file = results_file self i) as Hfile.
  { destruct (decide (param_list = [])) as [->|Hne].
    { destruct (run_simulations_low_nil func cpu_count self n_jobs) as (e & He & _).
      rewrite He in Hin. by apply elem_of_nil in Hin. }
    rewrite run_simulations_low_eq in Hin by done. cbn [fst] in Hin.
    unfold written_files in Hin. change (omap ?f (?e :: ?l)) with (omap f l) in Hin.
    rewrite omap_app, elem_of_app in Hin. destruct Hin as [Hin|Hin].
    - by apply (consume_written_files self param_list param_list 0 []) in Hin.
    - simpl in Hin. apply list_elem_of_singleton in Hin. by left. }
  split_and!; [|done|].
  - destruct Hfile as [->|[i ->]]; unfold index_file, results_file; eauto.
  - intros i Heq. by apply (index_file_no_artifact self i).
Qed.
End FilesFacts.

(** ** Facts about batches that cannot be expanded *)

Lemma mapR_Raise {A B : Type} (f : A -> result B) (l : list A) (x : A) (e : exn) :
  x ∈ l -> f x = Raise e -> exists e', mapR f l = Raise e'.
Proof.
  intros Hin Hx. induction l as [|y l IH]; [by apply elem_of_nil in Hin|].
  simpl. apply elem_of_cons in Hin as [<-|Hin].
  - rewrite Hx. simpl. eauto.
  - destruct (f y); simpl; [|eauto]. destruct (IH Hin) as [e' ->]. simpl. eauto.
Qed.

Lemma mapR_total {A B : Type} (f : A -> result B) (l : list A) :
  (exists l', mapR f l = Ok l') <-> forall x, x ∈ l -> exists y, f x = Ok y.
Proof.
  induction l as [|x l IH]; simpl.
  - split; [by intros _ x ?%elem_of_nil | eauto].
  - split.
    + intros (l' & Hl'). apply bind_Ok in Hl' as (y & Hy & Hl').
      apply bind_Ok in Hl' as (ys & Hys & _).
      intros x' [->|Hin]%elem_of_cons; [eauto|]. apply IH; eauto.
    + intros Hall. destruct (Hall x) as [y ->]; [by left|]. simpl.
      destruct (proj2 IH) as [ys ->]; [|simpl; eauto].
      intros x' Hin. apply Hall. by right.
Qed.

Lemma grid_size_zero (ns : list nat) : grid_size ns = 0%nat <-> 0%nat ∈ ns.
Proof.
  unfold grid_size. induction ns as [|n ns IH]; simpl.
  - split; [lia | by intros ?%elem_of_nil].
  - rewrite elem_of_cons, <-IH. lia.
Qed.

Lemma product_nil {A : Type} (pools : list (list A)) :
  product pools = [] <-> [] ∈ pools.
Proof.
  rewrite <-length_zero_iff_nil, length_product, grid_size_zero, list_elem_of_fmap.
  split.
  - intros (pool & Hlen & Hin). symmetry in Hlen. apply length_zero_iff_nil in Hlen.
    by subst.
  - intros Hin. by exists [].
Qed.

Lemma length_choice {A : Type} (pools : list (list A)) (choice : list A) :
  choice ∈ product pools -> length choice = length pools.
Proof.
  intros [k Hk]%list_elem_of_lookup.
  apply product_lookup_inv in Hk as (idx & Hsel & _).
  symmetry. by eapply Forall3_length_lr.
Qed.

Lemma truediv_zero (a b : value) :
  is_zero_number b = true ->
  exists e, truediv a b = Raise e /\
            exn_class e ∈ [ZeroDivisionError; TypeError; OverflowError].
Proof.
  unfold is_zero_number, truediv. intros Hz.
  destruct (as_number b) as [[y|fy]|]; [| |done].
  - apply Z.eqb_eq in Hz as ->.
    destruct (as_number a) as [[x|fx]|]; simpl.
    + eexists. split; [done|]. set_solver.
    + eexists. split; [done|]. set_solver.
    + eexists. split; [done|]. set_solver.
  - destruct (as_number a) as [[x|fx]|]; simpl.
    + unfold float_of_int. destruct (binary_normalize prec emax x 0 false); simpl;
        unfold float_truediv; rewrite ?Hz; eexists; (split; [done|]); set_solver.
    + unfold float_truediv. rewrite Hz. eexists. split; [done|]. set_solver.
    + eexists. split; [done|]. set_solver.
Qed.

Lemma derive_scaled_zero_dt (input : dict) (dt : value) :
  dict_get "dt" input = Some dt -> is_zero_number dt = true ->
  "mu_scale"%string ∈ dict_keys input \/ "alpha_scale"%string ∈ dict_keys input ->
  exists e, derive_scaled input = Raise e /\
            exn_class e ∈ [ZeroDivisionError; TypeError; OverflowError].
Proof.
  intros Hdt Hz Hscale. unfold derive_scaled.
  assert (dict_mem "dt" input = true) as ->.
  { apply dict_mem_true, dict_get_is_Some. eauto. }
  assert (forall scale raw line (d : dict),
    dict_mem scale d = true -> dict_get "dt" d = Some dt ->
    exists e, at_line line "run_batch"
                (s ← getitem scale d; dt ← getitem "dt" d; q ← truediv s dt;
                 Ok (dict_set raw (VFloat q) d)) = Raise e /\
              exn_class e ∈ [ZeroDivisionError; TypeError; OverflowError]) as Hdiv.
  { intros scale raw line d Hmem Hd.
    apply dict_mem_true, dict_get_is_Some in Hmem as [s Hs].
    unfold getitem. rewrite Hs, Hd. simpl.
    destruct (truediv_zero s dt Hz) as (e & -> & Hcls). simpl. eauto. }
  destruct (dict_mem "mu_scale" input) eqn:Hmu.
  - destruct (Hdiv "mu_scale"%string "mu"%string 115%nat input Hmu Hdt) as (e & -> & Hcls).
    simpl. eauto.
  - simpl. destruct Hscale as [Hs|Hs]; [by apply dict_mem_true in Hs; congruence|].
    apply dict_mem_true in Hs. rewrite Hs.
    exact (Hdiv "alpha_scale"%string "alpha"%string 118%nat input Hs Hdt).
Qed.

Lemma overlay_keys (d : dict) (keys : list string) (choice : list value) (k : string) :
  length choice = length keys ->
  k ∈ dict_keys (foldl (fun d cp => dict_set cp.2 cp.1 d) d (zip choice keys))
  <-> k ∈ dict_keys d \/ k ∈ keys.
Proof.
  revert d choice. induction keys as [|p keys IH]; intros d [|c choice] Hlen; try done.
  - simpl. set_solver.
  - simpl. rewrite IH by (simpl in Hlen; lia). unfold dict_keys.
    rewrite dict_set_elem_of. set_solver.
Qed.

Section GridMore.
Context `{Numpy} {R : Type} (func : dict -> option R) (cpu_count : Z).

(** X4.  [run_batch] returns normally exactly when its checks pass, no
    axis of [ranges] is empty and the derived parameters of every
    combination can be computed; what the runs return plays no part. *)
Theorem run_batch_completes_iff (self : BatchSimulator) (base : dict)
    (ranges : list (string * list value)) (grid : bool) (n_jobs : option Z) :
  NoDup ranges.*1 ->
  (run_batch func cpu_count self base ranges grid n_jobs).2 = Ok () <->
  check_ranges base ranges = Ok () /\
  Forall (fun pool => pool ≠ []) ranges.*2 /\
  (forall choice, choice ∈ product ranges.*2 ->
     exists out, expand_choice base ranges.*1 choice = Ok out).
Proof.
  intros Hnd. unfold run_batch.
  destruct (param_grid base ranges) as [param_list|e] eqn:Hgrid.
  - pose proof Hgrid as Hg. apply param_grid_Ok in Hg as [Hcheck Hall]; [|done].
    assert (forall choice, choice ∈ product ranges.*2 ->
              exists out, expand_choice base ranges.*1 choice = Ok out) as Hexp.
    { apply mapR_total. exists param_list. by apply mapR_Forall2. }
    destruct (decide (param_list = [])) as [->|Hne].
    + destruct (run_simulations_low_nil func cpu_count self None) as (e & -> & _). simpl.
      split; [done|]. intros (_ & Hpools & _). exfalso.
      apply Forall2_nil_inv_r in Hall. apply product_nil in Hall.
      rewrite Forall_forall in Hpools. by apply (Hpools []).
    + rewrite (run_simulations_low_eq func cpu_count self param_list None Hne). simpl.
      split; [|done]. intros _. split_and!; [done| |done].
      apply Forall_forall. intros pool Hin ->.
      apply product_nil in Hin. rewrite Hin in Hall.
      apply Forall2_nil_inv_l in Hall. done.
  - simpl. split; [done|]. intros (Hcheck & _ & Hexp). exfalso.
    apply mapR_total in Hexp as [param_list Hl].
    assert (param_grid base ranges = Ok param_list); [|congruence].
    apply param_grid_Ok; [done|]. split; [done|]. by apply mapR_Forall2.
Qed.

(** X5.  When the checks pass and some axis of [ranges] has no value, there
    is no combination: [run_batch] prints the empty list and the pool
    constructor raises [ValueError], since no process is to be had for zero
    tasks; nothing is run and no index is written. *)
Theorem run_batch_empty_axis (self : BatchSimulator) (base : dict)
    (ranges : list (string * list value)) (grid : bool) (n_jobs : option Z) :
  NoDup ranges.*1 ->
  check_ranges base ranges = Ok () ->
  [] ∈ ranges.*2 ->
  exists e,
    run_batch func cpu_count self base ranges grid n_jobs
      = ([EPrint [VList []]], Raise e) /\
    exn_class e = ValueError /\
    exn_msg e = "Number of processes must be at least 1"%string.
Proof.
  intros Hnd Hcheck Hempty. apply product_nil in Hempty.
  assert (param_grid base ranges = Ok []) as Hgrid.
  { apply param_grid_Ok; [done|]. split; [done|]. rewrite Hempty. constructor. }
  unfold run_batch. rewrite Hgrid. unfold run_simulations_low. simpl.
  replace (Z.max 1 _ `min` 0) with 0 by lia. simpl. eauto.
Qed.

(** X6.  A combination whose step size [dt] is zero, in a batch that gives
    [mu_scale] or [alpha_scale], makes [run_batch] raise before it prints
    the list, creates the pool or runs anything: the division of line 115 or
    118 fails for that combination and no combination is run. *)
Theorem run_batch_zero_dt_aborts (self : BatchSimulator) (base : dict)
    (ranges : list (string * list value)) (grid : bool) (n_jobs : option Z)
    (choice : list value) (dt : value) :
  NoDup ranges.*1 ->
  choice ∈ product ranges.*2 ->
  let input_params := overlay base ranges.*1 choice in
  dict_get "dt" input_params = Some dt ->
  is_zero_number dt = true ->
  "mu_scale"%string ∈ dict_keys input_params \/ "alpha_scale"%string ∈ dict_keys input_params ->
  exists e, run_batch func cpu_count self base ranges grid n_jobs = ([], Raise e).
Proof.
  intros Hnd Hin input_params Hdt Hz Hscale. unfold run_batch.
  destruct (param_grid base ranges) as [param_list|e] eqn:Hgrid; [|eauto].
  exfalso. apply param_grid_Ok in Hgrid as [_ Hall]; [|done].
  apply mapR_Forall2 in Hall.
  destruct (derive_scaled_zero_dt input_params dt Hdt Hz Hscale) as (e & He & _).
  destruct (mapR_Raise (expand_choice base ranges.*1) _ _ _ Hin He) as [e' He'].
  congruence.
Qed.
End GridMore.

(** X7.  The keys of an expanded ParameterSet are the keys of the base
    parameters and the varied keys, with [mu] besides when [dt] and
    [mu_scale] are among them, and [alpha] besides when [dt] and
    [alpha_scale] are; it has no other key. *)
Theorem expanded_parameter_names (base : dict) (ranges : list (string * list value))
    (param_list : list dict) (out : dict) :
  NoDup ranges.*1 ->
  param_grid base ranges = Ok param_list ->
  out ∈ param_list ->
  let given k := k ∈ dict_keys base \/ k ∈ dict_keys ranges in
  forall k, k ∈ dict_keys out <->
    given k \/
    (k = "mu"%string /\ given "dt"%string /\ given "mu_scale"%string) \/
    (k = "alpha"%string /\ given "dt"%string /\ given "alpha_scale"%string).
Proof.
  intros Hnd Hgrid Hout given k.
  apply param_grid_Ok in Hgrid as [_ Hall]; [|done].
  apply list_elem_of_lookup in Hout as [i Hi].
  destruct (Forall2_lookup_r _ _ _ _ _ Hall Hi) as (choice & Hch & Hexp).
  apply list_elem_of_lookup_2, length_choice in Hch.
  rewrite length_fmap, <-(length_fmap fst) in Hch.
  assert (forall k', k' ∈ dict_keys (overlay base ranges.*1 choice) <-> given k') as Hkeys.
  { intros k'. unfold overlay. rewrite overlay_keys by done.
    by rewrite deepcopy_dict_id. }
  unfold expand_choice in Hexp.
  apply derive_scaled_Ok in Hexp as (Hsame & Hmu & Halpha & _).
  unfold derived in Hmu, Halpha.
  assert (forall k' (d : dict), dict_mem k' d = true <-> k' ∈ dict_keys d) as Hmem
    by (intros; apply dict_mem_true).
  unfold dict_keys in *. rewrite <-dict_get_is_Some.
  destruct (decide (k = "mu"%string)) as [->|Hk1].
  - destruct (dict_mem "dt" _ && dict_mem "mu_scale" _) eqn:Hb.
    + apply andb_true_iff in Hb as [Hd%Hmem%Hkeys Hs%Hmem%Hkeys].
      destruct Hmu as (s & dt & q & _ & _ & _ & ->). split; [|eauto]. intros _.
      right. left. done.
    + rewrite Hmu, dict_get_is_Some, Hkeys. split; [tauto|].
      intros [Hg|[(_ & Hd%Hkeys%Hmem & Hs%Hkeys%Hmem)|(? & _)]]; [done| |done].
      rewrite Hd, Hs in Hb. done.
  - destruct (decide (k = "alpha"%string)) as [->|Hk2].
    + destruct (dict_mem "dt" _ && dict_mem "alpha_scale" _) eqn:Hb.
      * apply andb_true_iff in Hb as [Hd%Hmem%Hkeys Hs%Hmem%Hkeys].
        destruct Halpha as (s & dt & q & _ & _ & _ & ->). split; [|eauto]. intros _.
        right. right. done.
      * rewrite Halpha, dict_get_is_Some, Hkeys. split; [tauto|].
        intros [Hg|[(? & _)|(_ & Hd%Hkeys%Hmem & Hs%Hkeys%Hmem)]]; [done|done|].
        rewrite Hd, Hs in Hb. done.
    + rewrite Hsame, dict_get_is_Some, Hkeys by done. naive_solver.
Qed.

(** ** Facts about the grid *)

Lemma derive_scaled_defined (input : dict) :
  (exists out, derive_scaled input = Ok out) <->
  divisible "mu_scale" input /\ divisible "alpha_scale" input.
Proof.
  unfold derive_scaled, divisible.
  destruct (dict_mem "dt" input) eqn:Hdt; [|split; [done | eauto]].
  assert (exists dt, dict_get "dt" input = Some dt) as [dt Hd].
  { apply dict_mem_true, dict_get_is_Some in Hdt. exact Hdt. }
  assert (forall scale (d : dict), dict_mem scale d = true ->
            exists s, dict_get scale d = Some s) as Hval.
  { intros scale d Hs. apply dict_mem_true, dict_get_is_Some in Hs. exact Hs. }
  destruct (dict_mem "mu_scale" input) eqn:Hmu.
  - destruct (Hval _ _ Hmu) as [s Hs]. unfold getitem. rewrite Hs, Hd. simpl.
    destruct (truediv s dt) as [q|e] eqn:Hq; simpl.
    + rewrite dict_mem_set by done.
      destruct (dict_mem "alpha_scale" input) eqn:Ha.
      * destruct (Hval _ _ Ha) as [s' Hs'].
        rewrite !dict_get_set_ne by done. rewrite Hs', Hd. simpl.
        destruct (truediv s' dt) as [q'|e'] eqn:Hq'; simpl.
        -- split; [|eauto]. intros _. split; intros _ _; eauto 10.
        -- split; [by intros [? ?]|]. intros [_ Hdiv].
           destruct Hdiv as (s2 & dt2 & q2 & H1 & H2 & H3); [done..|]. congruence.
      * split; [|eauto]. intros _. split; [|done]. intros _ _. eauto 10.
    + split; [by intros [? ?]|]. intros [Hdiv _].
      destruct Hdiv as (s2 & dt2 & q2 & H1 & H2 & H3); [done..|]. congruence.
  - simpl. destruct (dict_mem "alpha_scale" input) eqn:Ha.
    + destruct (Hval _ _ Ha) as [s' Hs']. unfold getitem. rewrite Hs', Hd. simpl.
      destruct (truediv s' dt) as [q'|e'] eqn:Hq'; simpl.
      * split; [|eauto]. intros _. split; [done|]. intros _ _. eauto 10.
      * split; [by intros [? ?]|]. intros [_ Hdiv].
        destruct Hdiv as (s2 & dt2 & q2 & H1 & H2 & H3); [done..|]. congruence.
    + split; [|eauto]. done.
Qed.

Lemma overlay_given (base : dict) (ranges : list (string * list value))
    (choice : list value) (k : string) :
  choice ∈ product ranges.*2 ->
  dict_mem k (overlay base ranges.*1 choice) = true <-> given base ranges k.
Proof.
  intros Hch%length_choice. rewrite length_fmap, <-(length_fmap fst) in Hch.
  rewrite dict_mem_true. unfold overlay, given.
  change (k ∈ dict_keys (foldl (fun d cp => dict_set cp.2 cp.1 d) (deepcopy_dict base)
                          (zip choice ranges.*1)) <-> k ∈ dict_keys base \/ k ∈ dict_keys ranges).
  rewrite overlay_keys by done. by rewrite deepcopy_dict_id.
Qed.

Section Grid.
Context `{Numpy} {R : Type} (func : dict -> option R) (cpu_count : Z).

(** C1, amended.  For a base ParameterSet and [ranges] of [k] axes of sizes
    [n1..nk]: [run_batch] builds its list exactly when the checks of C4 pass
    and the division of line 115 or 118 has a result for every combination
    that defines [dt] and the scale form; when it does not, it raises before
    anything is printed or run.  When the list is built, [run_batch] prints it
    and hands it to [run_simulations_low]; it has exactly [n1 * ... * nk]
    elements; the combination that takes element [idx_j] of axis [j] stands
    at position [rank sizes idx], the number with mixed-radix digits [idx],
    the last axis least significant (so the last axis varies fastest); every
    position holds exactly one combination.  The element of a combination
    is [derive_scaled] of the combination's values set on a deep copy of the
    base; it has the combination's value under every varied key and the
    base's value under every other key, but for [mu] (and [alpha]) where
    [dt] and [mu_scale] ([alpha_scale]) are given: then it holds the quotient
    of C2, whatever was varied or set.  The elements are pairwise distinct
    when no axis repeats a value and no varied [mu] or [alpha] is
    overwritten so. *)
Theorem run_batch_cartesian_grid (self : BatchSimulator) (grid : bool) (n_jobs : option Z)
    (base : dict) (ranges : list (string * list value)) :
  NoDup ranges.*1 ->
  let params_to_vary := ranges.*1 in
  let pools := ranges.*2 in
  let sizes := length <$> pools in
  ((exists param_list, param_grid base ranges = Ok param_list) <->
   check_ranges base ranges = Ok () /\
   forall choice, choice ∈ product pools ->
     divisible "mu_scale" (overlay base params_to_vary choice) /\
     divisible "alpha_scale" (overlay base params_to_vary choice)) /\
  (forall e, param_grid base ranges = Raise e ->
     run_batch func cpu_count self base ranges grid n_jobs = ([], Raise e)) /\
  (forall param_list, param_grid base ranges = Ok param_list ->
     run_batch func cpu_count self base ranges grid n_jobs =
       (EPrint [VList (VDict <$> param_list)]
          :: (run_simulations_low func cpu_count self param_list None).1,
        at_line 122 "run_batch"
          (run_simulations_low func cpu_count self param_list None).2) /\
     length param_list = grid_size sizes /\
     (Forall NoDup pools -> NoDup (product pools)) /\
     (forall idx choice, selects pools idx choice ->
        exists out, param_list !! rank sizes idx = Some out /\
                    expand_choice base params_to_vary choice = Ok out) /\
     (forall k out, param_list !! k = Some out ->
        exists idx choice,
          selects pools idx choice /\ rank sizes idx = k /\
          expand_choice base params_to_vary choice = Ok out /\
          forall idx', Forall2 lt idx' sizes -> rank sizes idx' = k -> idx' = idx) /\
     (forall idx choice out,
        selects pools idx choice -> param_list !! rank sizes idx = Some out ->
        let input_params := overlay base params_to_vary choice in
        (forall j p c, params_to_vary !! j = Some p -> choice !! j = Some c ->
           dict_get p input_params = Some c) /\
        (forall k, k ∉ params_to_vary -> dict_get k input_params = dict_get k base) /\
        derive_scaled input_params = Ok out /\
        (forall j p c, params_to_vary !! j = Some p -> choice !! j = Some c ->
           ¬ (p = "mu"%string /\ computed "mu_scale" base ranges) ->
           ¬ (p = "alpha"%string /\ computed "alpha_scale" base ranges) ->
           dict_get p out = Some c) /\
        (forall k, k ∉ params_to_vary ->
           ¬ (k = "mu"%string /\ computed "mu_scale" base ranges) ->
           ¬ (k = "alpha"%string /\ computed "alpha_scale" base ranges) ->
           dict_get k out = dict_get k base) /\
        (computed "mu_scale" base ranges ->
         exists s dt q,
           dict_get "mu_scale" out = Some s /\ dict_get "dt" out = Some dt /\
           truediv s dt = Ok q /\ dict_get "mu" out = Some (VFloat q)) /\
        (computed "alpha_scale" base ranges ->
         exists s dt q,
           dict_get "alpha_scale" out = Some s /\ dict_get "dt" out = Some dt /\
           truediv s dt = Ok q /\ dict_get "alpha" out = Some (VFloat q))) /\
     (Forall NoDup pools ->
      ¬ ("mu"%string ∈ params_to_vary /\ computed "mu_scale" base ranges) ->
      ¬ ("alpha"%string ∈ params_to_vary /\ computed "alpha_scale" base ranges) ->
      NoDup param_list)).
Proof.
  intros Hnd params_to_vary pools sizes.
  (* what an element holds, for a combination of the product *)
  assert (forall choice out,
    choice ∈ product pools -> expand_choice base params_to_vary choice = Ok out ->
    (forall j p c, params_to_vary !! j = Some p -> choice !! j = Some c ->
       ¬ (p = "mu"%string /\ computed "mu_scale" base ranges) ->
       ¬ (p = "alpha"%string /\ computed "alpha_scale" base ranges) ->
       dict_get p out = Some c) /\
    (forall k, k ∉ params_to_vary ->
       ¬ (k = "mu"%string /\ computed "mu_scale" base ranges) ->
       ¬ (k = "alpha"%string /\ computed "alpha_scale" base ranges) ->
       dict_get k out = dict_get k base) /\
    (computed "mu_scale" base ranges ->
     exists s dt q,
       dict_get "mu_scale" out = Some s /\ dict_get "dt" out = Some dt /\
       truediv s dt = Ok q /\ dict_get "mu" out = Some (VFloat q)) /\
    (computed "alpha_scale" base ranges ->
     exists s dt q,
       dict_get "alpha_scale" out = Some s /\ dict_get "dt" out = Some dt /\
       truediv s dt = Ok q /\ dict_get "alpha" out = Some (VFloat q))) as Hholds.
  { intros choice out Hch Hexp. unfold expand_choice in Hexp.
    apply derive_scaled_Ok in Hexp as (Hsame & Hmu & Halpha & _).
    unfold derived in Hmu, Halpha.
    pose proof (fun k => overlay_given base ranges choice k Hch) as Hgiven.
    fold params_to_vary in Hgiven.
    assert (forall scale,
      dict_mem "dt" (overlay base params_to_vary choice)
        && dict_mem scale (overlay base params_to_vary choice) = true
      <-> computed scale base ranges) as Hcomp.
    { intros scale. rewrite andb_true_iff, !Hgiven. done. }
    assert (forall k, ¬ (k = "mu"%string /\ computed "mu_scale" base ranges) ->
              ¬ (k = "alpha"%string /\ computed "alpha_scale" base ranges) ->
              dict_get k out = dict_get k (overlay base params_to_vary choice)) as Hkeep.
    { intros k Hk1 Hk2. destruct (decide (k = "mu"%string)) as [->|Hne1].
      - destruct (dict_mem "dt" _ && dict_mem "mu_scale" _) eqn:Hb; [|done].
        apply Hcomp in Hb. tauto.
      - destruct (decide (k = "alpha"%string)) as [->|Hne2]; [|by apply Hsame].
        destruct (dict_mem "dt" _ && dict_mem "alpha_scale" _) eqn:Hb; [|done].
        apply Hcomp in Hb. tauto. }
    split_and!.
    - intros j p c Hp Hc Hk1 Hk2. rewrite Hkeep by done. by eapply overlay_get.
    - intros k Hk Hk1 Hk2. rewrite Hkeep by done. unfold overlay.
      rewrite overlay_frame by done. by rewrite deepcopy_dict_id.
    - intros Hc%Hcomp. by rewrite Hc in Hmu.
    - intros Hc%Hcomp. by rewrite Hc in Halpha. }
  split_and!.
  - split.
    + intros [param_list Hgrid]. apply param_grid_Ok in Hgrid as [Hcheck Hall]; [|done].
      split; [done|]. intros choice Hch. apply derive_scaled_defined.
      apply (proj1 (mapR_total (expand_choice base params_to_vary) (product pools)));
        [|done].
      exists param_list. by apply mapR_Forall2.
    + intros [Hcheck Hall].
      destruct (proj2 (mapR_total (expand_choice base params_to_vary) (product pools)))
        as [param_list Hl].
      { intros choice Hch. by apply derive_scaled_defined, Hall. }
      exists param_list. apply param_grid_Ok; [done|]. split; [done|].
      by apply mapR_Forall2.
  - intros e Hgrid. unfold run_batch. by rewrite Hgrid.
  - intros param_list Hgrid.
    pose proof (run_batch_eq func cpu_count self base ranges grid n_jobs param_list Hgrid)
      as Hrun.
    apply param_grid_Ok in Hgrid as [_ Hall]; [|done].
    fold params_to_vary pools in Hall.
    assert (length param_list = grid_size sizes) as Hlen.
    { rewrite <-(Forall2_length _ _ _ Hall). apply length_product. }
    split_and!; [done | done | apply product_NoDup | | | |].
    + intros idx choice Hsel.
      pose proof (product_lookup _ _ _ Hsel) as Hlook.
      destruct (Forall2_lookup_l _ _ _ _ _ Hall Hlook) as (out & Hout & Hexp). eauto.
    + intros k out Hk.
      destruct (Forall2_lookup_r _ _ _ _ _ Hall Hk) as (choice & Hch & Hexp).
      destruct (product_lookup_inv _ _ _ Hch) as (idx & Hsel & Hrank).
      exists idx, choice. split_and!; [done..|].
      intros idx' Hvalid Hrank'. apply (rank_inj sizes); [done | | ].
      * by apply selects_valid in Hsel.
      * by rewrite Hrank', <-Hrank.
    + intros idx choice out Hsel Hout.
      pose proof (product_lookup _ _ _ Hsel) as Hlook.
      destruct (Forall2_lookup_l _ _ _ _ _ Hall Hlook) as (out' & Hout' & Hexp).
      fold sizes in Hout'. rewrite Hout in Hout'. injection Hout' as <-.
      intros input_params.
      destruct (Hholds choice out) as (Hvaried & Hbase & Hmu & Halpha);
        [by eapply list_elem_of_lookup_2 | done |].
      split_and!; [| | done..].
      * intros j p c Hp Hc. by eapply overlay_get.
      * intros k Hk. unfold input_params, overlay.
        rewrite overlay_frame by done. by rewrite deepcopy_dict_id.
    + intros Hpools Hmu Halpha. apply NoDup_alt. intros k1 k2 out Hk1 Hk2.
      destruct (Forall2_lookup_r _ _ _ _ _ Hall Hk1) as (ch1 & Hch1 & Hexp1).
      destruct (Forall2_lookup_r _ _ _ _ _ Hall Hk2) as (ch2 & Hch2 & Hexp2).
      assert (ch1 = ch2) as <-.
      { pose proof (list_elem_of_lookup_2 _ _ _ Hch1) as Hin1.
        pose proof (list_elem_of_lookup_2 _ _ _ Hch2) as Hin2.
        destruct (Hholds _ _ Hin1 Hexp1) as (Hv1 & _).
        destruct (Hholds _ _ Hin2 Hexp2) as (Hv2 & _).
        pose proof (length_choice _ _ Hin1) as Hl1.
        pose proof (length_choice _ _ Hin2) as Hl2.
        unfold pools in Hl1, Hl2. rewrite length_fmap, <-(length_fmap fst) in Hl1, Hl2.
        fold params_to_vary in Hl1, Hl2.
        apply list_eq_same_length with (length params_to_vary); [done..|].
        intros j c1 c2 Hj Hc1 Hc2.
        destruct (lookup_lt_is_Some_2 params_to_vary j Hj) as [p Hp].
        assert (p ∈ params_to_vary) as Hpin by (by eapply list_elem_of_lookup_2).
        assert (Some c1 = Some c2) as [= ->]; [|done].
        rewrite <-(Hv1 j p c1), <-(Hv2 j p c2); try done.
        all: intros [-> ?]; tauto. }
      apply (NoDup_lookup (product pools) k1 k2 ch1); [by apply product_NoDup | done..].
Qed.
End Grid.

(** ** Facts about the call of a run and its result *)

Lemma contains_part (s t a b c : string) :
  contains s t -> t = (a ++ b ++ c)%string -> contains s b.
Proof.
  intros (pre & post & ->) ->. exists (pre ++ a)%string, (c ++ post)%string.
  by rewrite !string_app_assoc.
Qed.

Lemma dict_set_NoDup {V : Type} (k : string) (v : V) (d : list (string * V)) :
  NoDup d.*1 -> NoDup (dict_set k v d).*1.
Proof.
  induction d as [|[k' v'] d IH]; csimpl; intros Hnd.
  - apply NoDup_singleton.
  - apply NoDup_cons in Hnd as [Hk' Hnd].
    destruct (decide (k' = k)) as [->|Hne]; csimpl.
    + by apply NoDup_cons.
    + apply NoDup_cons. split; [|by apply IH].
      rewrite dict_set_elem_of. naive_solver.
Qed.

Lemma fromkeys_keys {V : Type} (v : V) (keys : list string) (d0 : list (string * V)) :
  let d := foldl (fun d p => dict_set p v d) d0 keys in
  (NoDup d0.*1 -> NoDup d.*1) /\
  forall k, k ∈ d.*1 <-> k ∈ keys \/ k ∈ d0.*1.
Proof.
  revert d0. induction keys as [|p keys IH]; intros d0; simpl.
  - split; [done|]. set_solver.
  - destruct (IH (dict_set p v d0)) as [Hnd Hkeys]. split.
    + intros H0. by apply Hnd, dict_set_NoDup.
    + intros k. rewrite Hkeys, dict_set_elem_of. set_solver.
Qed.

Section SimulationMore.
Context `{Solver}.

Lemma bind_args_Ok (params : dict) (kw : batch_kwargs) (a : sim_args) :
  bind_args params kw = Ok a ->
  a_dt a = default (VFloat (float_lit 1 100)) (dict_get "dt" params) /\
  a_max_t a = default (VInt 10) (dict_get "max_t" params) /\
  a_modes a = default (VInt 21) (dict_get "modes" params) /\
  a_N a = kw_N kw /\ a_lambda2 a = kw_lambda2 kw /\
  a_start_x a = Some (kw_start_x kw) /\ a_start_xspec a = Some (kw_start_xspec kw).
Proof.
  unfold bind_args. destruct (find _ _); [done|]. destruct (find _ _); [done|].
  by intros [= <-].
Qed.

(** X8.  A ParameterSet with a key that the batch passes itself
    ([start_xspec], [start_x], [N], [lambda2]) or that is no parameter of
    [run_simulation] never runs: the call of line 62 raises [TypeError], the
    wrapper prints the ParameterSet with the traceback and returns [None],
    whatever the solver. *)
Theorem simulation_wrapper_rejects_keys (params : dict) (kw : batch_kwargs) (k : string) :
  k ∈ dict_keys params ->
  k ∈ kwargs_names \/ k ∉ signature_names ->
  exists message,
    simulation_wrapper params kw = ([EPrint [VDict params; VStr message]], Ok None) /\
    contains message "TypeError" /\
    contains message "run_simulation() got".
Proof.
  intros Hin Hk.
  assert (exists rest, bind_args params kw
            = Raise (Exn TypeError ("run_simulation() got" ++ rest)%string EmptyString))
    as [rest Hbind].
  { unfold bind_args.
    destruct (find (fun k => bool_decide (k ∈ dict_keys params)) kwargs_names) eqn:H1.
    { by eexists (String " " _). }
    destruct (find (fun k => bool_decide (k ∉ signature_names)) (dict_keys params)) eqn:H2.
    { by eexists (String " " _). }
    exfalso. destruct Hk as [Hk|Hk].
    - apply list_elem_of_In in Hk. pose proof (find_none _ _ H1 _ Hk) as Hn1.
      simpl in Hn1. by apply bool_decide_eq_false in Hn1.
    - apply list_elem_of_In in Hin. pose proof (find_none _ _ H2 _ Hin) as Hn2.
      simpl in Hn2. by apply bool_decide_eq_false in Hn2. }
  unfold simulation_wrapper. rewrite Hbind. simpl.
  eexists. split; [done|].
  match goal with |- contains (format_exc ?e) _ /\ _ =>
    pose proof (format_exc_contains e) as (_ & Hcls & Hmsg) end.
  simpl in *. split; [done|].
  eapply (contains_part _ _ EmptyString _ rest); [exact Hmsg|]. done.
Qed.

(** X9.  A ParameterSet whose [dt] is zero never yields a result: the
    wrapper returns [None] or lets an exception that is no [Exception]
    through. *)
Theorem zero_dt_run_yields_no_result (params : dict) (kw : batch_kwargs) (dt : value)
    (r : run_result) :
  dict_get "dt" params = Some dt ->
  is_zero_number dt = true ->
  (simulation_wrapper params kw).2 ≠ Ok (Some r).
Proof.
  intros Hdt Hz. unfold simulation_wrapper.
  destruct (bind_args params kw) as [a|e] eqn:Hbind; simpl.
  - apply bind_args_Ok in Hbind as (Ha & _). rewrite Hdt in Ha. simpl in Ha.
    destruct (run_simulation a) as [r'|e] eqn:Hrun; simpl.
    + exfalso. unfold run_simulation in Hrun.
      apply bind_Ok in Hrun as (true & _ & Hrun).
      apply bind_Ok in Hrun as (guess & _ & Hrun).
      apply bind_Ok in Hrun as (assim & _ & Hrun).
      apply bind_Ok in Hrun as (max_n & Hmax%at_line_Ok & _).
      unfold max_n_of in Hmax. apply bind_Ok in Hmax as (q & Hq & _).
      rewrite Ha in Hq. destruct (truediv_zero (a_max_t a) dt Hz) as (e & He & _).
      congruence.
    + by destruct (is_Exception _).
  - by destruct (is_Exception _).
Qed.

(** X10.  The result of a run has a series under the name of each
    estimated parameter, under [interp_errors] and under [true_errors], under
    no other name, and under no name twice. *)
Theorem run_simulation_result_names (a : sim_args) (r : run_result) :
  run_simulation a = Ok r ->
  exists d,
    a_initial_guess a = VDict d /\
    NoDup (dict_keys r) /\
    forall name, name ∈ dict_keys r <->
      name ∈ dict_keys d \/ name = "interp_errors"%string \/ name = "true_errors"%string.
Proof.
  unfold run_simulation. intros Hrun.
  apply bind_Ok in Hrun as (true & _ & Hrun).
  apply bind_Ok in Hrun as (guess & Hguess%at_line_Ok & Hrun).
  apply bind_Ok in Hrun as (assim & _ & Hrun).
  apply bind_Ok in Hrun as (max_n & _ & Hrun).
  apply bind_Ok in Hrun as (s & Hiter & [= <-]).
  exists guess. split; [by destruct (a_initial_guess a); try done; injection Hguess as ->|].
  destruct (fromkeys_keys (@nil num) (dict_keys guess) []) as [Hnd Hkeys].
  destruct (empty_series (dict_keys guess) []) as [Hempty _]; [constructor|].
  apply iterR_lengths with (k := 0%nat) in Hiter as [_ Hsame].
  2:{ split_and!; [done | done |]. simpl.
      eapply Forall_impl; [exact Hempty|]. by intros pa ->. }
  simpl in Hsame. unfold dict_update, dict_keys. simpl. split.
  - apply dict_set_NoDup, dict_set_NoDup. rewrite Hsame. apply Hnd. constructor.
  - intros name. rewrite !dict_set_elem_of, Hsame, Hkeys. unfold dict_keys. set_solver.
Qed.
End SimulationMore.

Section MetricMore.
Context `{Numpy}.

Lemma zero_from_lookup (start : nat) (a : list num) (i : nat) :
  zero_from start a !! i
    = if decide (i < start)%nat then a !! i else (fun _ => num_zero) <$> a !! i.
Proof.
  unfold zero_from. destruct (decide (i < start)%nat) as [Hlt|Hge].
  - destruct (decide (i < length a)%nat).
    + rewrite lookup_app_l by (rewrite length_take; lia). by apply lookup_take_lt.
    + rewrite !lookup_ge_None_2; [done | lia |].
      rewrite length_app, length_take, length_replicate. lia.
  - destruct (decide (i < length a)%nat) as [Hi|Hi].
    + destruct (lookup_lt_is_Some_2 a i Hi) as [x ->]. simpl.
      rewrite lookup_app_r by (rewrite length_take; lia).
      apply lookup_replicate_2. rewrite length_take. lia.
    + rewrite !lookup_ge_None_2; [done | lia |].
      rewrite length_app, length_take, length_replicate. lia.
Qed.

(** X11.  [fourier_projector] with an integer [modes] hands [irfft] a
    spectrum of the same length that agrees with [spec] below the cut and is
    zero from the cut on; the cut is [modes], or [len(spec) + modes] for a
    negative [modes]; when the cut is not below the length, the spectrum
    is handed over unchanged. *)
Theorem fourier_projector_truncation (spec : list num) (modes : Z) :
  let cut := if modes <? 0 then Z.of_nat (length spec) + modes else modes in
  exists mod_spec,
    fourier_projector spec (VInt modes) = at_line 20 "fourier_projector" (irfft mod_spec) /\
    length mod_spec = length spec /\
    (forall i, Z.of_nat i < cut -> mod_spec !! i = spec !! i) /\
    (forall i, cut <= Z.of_nat i -> (i < length spec)%nat -> mod_spec !! i = Some num_zero) /\
    (Z.of_nat (length spec) <= cut -> mod_spec = spec).
Proof.
  intros cut. unfold fourier_projector. simpl.
  set (start := if modes <? 0 then Z.to_nat (Z.max 0 (Z.of_nat (length spec) + modes))
                else Nat.min (Z.to_nat modes) (length spec)).
  exists (zero_from start spec).
  assert (forall i, (i < length spec)%nat -> (i < start)%nat <-> Z.of_nat i < cut) as Hcut.
  { intros i Hi. unfold start, cut. destruct (modes <? 0) eqn:Hm; lia. }
  split_and!.
  - done.
  - apply length_zero_from.
  - intros i Hi. rewrite zero_from_lookup.
    destruct (decide (i < length spec)%nat) as [Hlen|Hlen].
    + rewrite decide_True by (by apply Hcut). done.
    + rewrite (lookup_ge_None_2 spec) by lia. by case_decide.
  - intros i Hi Hlen. rewrite zero_from_lookup.
    rewrite decide_False by (rewrite Hcut by done; lia).
    by destruct (lookup_lt_is_Some_2 spec i Hlen) as [x ->].
  - intros Hall. apply list_eq. intros i. rewrite zero_from_lookup.
    destruct (decide (i < length spec)%nat) as [Hlen|Hlen].
    + rewrite decide_True by (rewrite Hcut by done; lia). done.
    + rewrite (lookup_ge_None_2 spec) by lia. by case_decide.
Qed.
End MetricMore.

(** ** Facts about the constructor *)

Lemma lower_char_y (c : ascii) :
  lower_char c = "y"%char <-> c = "y"%char \/ c = "Y"%char.
Proof.
  split.
  - destruct c as [[] [] [] [] [] [] [] []]; vm_compute; intros Heq;
      solve [by left | by right | discriminate Heq].
  - by intros [->| ->].
Qed.

Lemma lower_y (s : string) :
  lower s = "y"%string <-> exists c, s = String c EmptyString /\ (c = "y"%char \/ c = "Y"%char).
Proof.
  split.
  - destruct s as [|c [|c' s]]; simpl; try done.
    intros [= Hc]. apply lower_char_y in Hc. eauto.
  - intros (c & -> & Hc). simpl. apply lower_char_y in Hc. by rewrite Hc.
Qed.

Lemma blank_app (s t : string) : blank (s ++ t) = blank s && blank t.
Proof.
  unfold blank. induction s as [|c s IH]; [done|].
  change (is_space c && forallb is_space (list_ascii_of_string (s ++ t)%string)
          = is_space c && forallb is_space (list_ascii_of_string s)
            && forallb is_space (list_ascii_of_string t)).
  rewrite IH. by rewrite andb_assoc.
Qed.

Lemma lstrip_spec (s : string) :
  exists l, s = (l ++ lstrip s)%string /\ blank l = true.
Proof.
  induction s as [|c s (l & Hs & Hl)]; [by exists EmptyString|].
  simpl. destruct (is_space c) eqn:Hc.
  - exists (String c l). split.
    + change (String c s = String c (l ++ lstrip s)). by rewrite <-Hs.
    + unfold blank in *. simpl. by rewrite Hc.
  - by exists EmptyString.
Qed.

Lemma rstrip_spec (s : string) :
  exists r, s = (rstrip s ++ r)%string /\ blank r = true.
Proof.
  induction s as [|c s (r & Hs & Hr)]; [by exists EmptyString|].
  simpl. destruct (rstrip s) as [|c' t] eqn:Ht.
  - change (EmptyString ++ r)%string with r in Hs. subst s.
    destruct (is_space c) eqn:Hc.
    + exists (String c r). split; [done|]. unfold blank in *. simpl. by rewrite Hc.
    + by exists r.
  - exists r. split; [|done].
    change (String c s = String c (String c' t ++ r)). by rewrite <-Hs.
Qed.

Lemma rstrip_blank (r : string) : blank r = true -> rstrip r = EmptyString.
Proof.
  unfold blank. induction r as [|c r IH]; [done|]. simpl.
  intros [Hc Hr]%andb_true_iff. by rewrite IH, Hc.
Qed.

Lemma rstrip_app (l t : string) :
  rstrip t ≠ EmptyString -> rstrip (l ++ t) = (l ++ rstrip t)%string.
Proof.
  intros Ht. induction l as [|c l IH]; [done|].
  change (rstrip (String c (l ++ t)) = String c (l ++ rstrip t)).
  simpl. rewrite IH. destruct (l ++ rstrip t)%string eqn:Heq; [|done].
  destruct l; [|done]. done.
Qed.

Lemma lstrip_app (l t : string) : blank l = true -> lstrip (l ++ t) = lstrip t.
Proof.
  unfold blank. induction l as [|c l IH]; [done|]. simpl.
  intros [Hc Hl]%andb_true_iff.
  change (lstrip (String c (l ++ t)) = lstrip t). simpl. rewrite Hc. by apply IH.
Qed.

(** X12.  The answers the prompt of line 88 takes for a yes are [y] and
    [Y] with any white space before and after, and no other. *)
Theorem prompt_accepts_only_y (ans : string) :
  lower (strip ans) = "y"%string <->
  exists l c r,
    ans = (l ++ String c r)%string /\ (c = "y"%char \/ c = "Y"%char) /\
    blank l = true /\ blank r = true.
Proof.
  rewrite lower_y. split.
  - intros (c & Hstrip & Hc). unfold strip in Hstrip.
    destruct (rstrip_spec ans) as (r & Hans & Hr).
    destruct (lstrip_spec (rstrip ans)) as (l & Hl & Hbl).
    rewrite Hstrip in Hl. exists l, c, r. split_and!; [|done..].
    rewrite Hans at 1. rewrite Hl. by rewrite string_app_assoc.
  - intros (l & c & r & -> & Hc & Hl & Hr). exists c. split; [|done].
    assert (is_space c = false) as Hsp by (by destruct Hc as [-> | ->]).
    assert (rstrip (String c r) = String c EmptyString) as Hrs.
    { simpl. by rewrite (rstrip_blank r Hr), Hsp. }
    unfold strip. rewrite rstrip_app by (by rewrite Hrs).
    rewrite Hrs, lstrip_app by done. simpl. by rewrite Hsp.
Qed.

Section ConstructorFacts.
Context `{Warmup} `{OS}.

Lemma warm_up_Ok (lambda2 N warmup_time warmup_dt : value) (w : KS) :
  warm_up lambda2 N warmup_time warmup_dt = Ok w <->
  exists w0 n, KS_warmup lambda2 N warmup_dt = Ok w0 /\
               max_n_of warmup_time warmup_dt = Ok n /\
               iterR (Z.to_nat n) KS_advance w0 = Ok w.
Proof.
  unfold warm_up. split.
  - intros Hw. apply bind_Ok in Hw as (w0 & Hw0%at_line_Ok & Hw).
    apply bind_Ok in Hw as (n & Hn%at_line_Ok & Hw%at_line_Ok). eauto.
  - intros (w0 & n & -> & -> & Hw). simpl. by rewrite Hw.
Qed.

Ltac run_init :=
  unfold init, clear_outdir, lift, call, mbind, io_bind, mret, io_ret; simpl.

(** X13.  The constructor asks only when the directory exists and
    [overwrite] is false; it removes only [outdir], only when it exists, and
    only if [overwrite] is true or the answer was a yes; it creates only
    [outdir], and where that existed only under the same condition; and it
    does none of this unless the warm-up run has succeeded. *)
Theorem init_touches_directory_only_with_consent (outdir : string)
    (lambda2 N warmup_time warmup_dt overwrite : value) :
  let log := io_log (init outdir lambda2 N warmup_time warmup_dt overwrite) in
  let consent :=
    truthy overwrite = true \/
    exists ans, builtin_input (prompt outdir) = Ok ans /\ lower (strip ans) = "y"%string in
  (forall p, OInput p ∈ log ->
     p = prompt outdir /\ os_path_exists outdir = true /\ truthy overwrite = false) /\
  (forall path, ORmtree path ∈ log ->
     path = outdir /\ os_path_exists outdir = true /\ consent) /\
  (forall path, OMakedirs path ∈ log ->
     path = outdir /\ (os_path_exists outdir = true -> consent)) /\
  (log ≠ [] -> exists w, warm_up lambda2 N warmup_time warmup_dt = Ok w).
Proof.
  intros log consent. subst log consent. run_init.
  destruct (warm_up lambda2 N warmup_time warmup_dt) as [w|e]; simpl.
  2:{ split_and!; [by intros ? ?%elem_of_nil.. | done]. }
  destruct (os_path_exists outdir); simpl.
  2:{ destruct (at_line 93 _ _); simpl; split_and!; eauto; intros ?; set_solver. }
  destruct (truthy overwrite); simpl.
  { destruct (at_line 92 _ _); simpl; [destruct (at_line 93 _ _); simpl|];
      split_and!; eauto; intros ?; set_solver. }
  destruct (builtin_input (prompt outdir)) as [ans|e] eqn:Hans; simpl.
  2:{ split_and!; eauto; intros ?; set_solver. }
  case_bool_decide as Hy; simpl.
  { split_and!; eauto; intros ?; set_solver. }
  destruct (at_line 92 _ _); simpl; [destruct (at_line 93 _ _); simpl|];
    split_and!; eauto; intros ? Hin; (split; [set_solver|]); eauto.
Qed.

(** X14.  When the constructor returns, the simulator holds the state of a
    [KS] solver advanced [int(warmup_time / warmup_dt)] times, together with
    [outdir], [N] and [lambda2]; the directory has just been created and the
    last message printed; and a directory that existed was removed right
    before, after a yes to the prompt when [overwrite] is false. *)
Theorem init_returns_fresh_directory (outdir : string)
    (lambda2 N warmup_time warmup_dt overwrite : value) (self : BatchSimulator) :
  io_out (init outdir lambda2 N warmup_time warmup_dt overwrite) = Ok self ->
  (exists w0 n w,
     KS_warmup lambda2 N warmup_dt = Ok w0 /\
     max_n_of warmup_time warmup_dt = Ok n /\
     iterR (Z.to_nat n) KS_advance w0 = Ok w /\
     self = {| start_x := KS_x w; start_xspec := KS_xspec w;
               outdir := outdir; N := N;
               lambda2 := lambda2 |}) /\
  os_makedirs outdir = Ok () /\
  exists before,
    io_log (init outdir lambda2 N warmup_time warmup_dt overwrite)
      = before ++ [OMakedirs outdir; OPrint "Initialized the chaotic initial state."] /\
    if os_path_exists outdir then
      shutil_rmtree outdir = Ok () /\
      (before = [ORmtree outdir] /\ truthy overwrite = true \/
       before = [OInput (prompt outdir); ORmtree outdir] /\ truthy overwrite = false /\
       exists ans, builtin_input (prompt outdir) = Ok ans /\ lower (strip ans) = "y"%string)
    else before = [].
Proof.
  run_init.
  destruct (warm_up lambda2 N warmup_time warmup_dt) as [w|e] eqn:Hw; simpl; [|done].
  apply warm_up_Ok in Hw as (w0 & n & Hw0 & Hn & Hw).
  assert (forall m : result unit, at_line 93 "__init__" m = Ok () -> m = Ok ()) as H93
    by (by intros [[]|]).
  destruct (os_path_exists outdir); simpl.
  2:{ destruct (at_line 93 _ _) as [[]|] eqn:Hmk; simpl; [|done]. intros [= <-].
      split; [by eauto 10|]. split; [by apply H93|]. by exists []. }
  assert (forall m : result unit, at_line 92 "__init__" m = Ok () -> m = Ok ()) as H92
    by (by intros [[]|]).
  destruct (truthy overwrite); simpl.
  { destruct (at_line 92 _ _) as [[]|] eqn:Hrm; simpl; [|done].
    destruct (at_line 93 _ _) as [[]|] eqn:Hmk; simpl; [|done]. intros [= <-].
    split; [by eauto 10|]. split; [by apply H93|].
    exists [ORmtree outdir]. split; [done|]. split; [by apply H92|]. by left. }
  destruct (builtin_input (prompt outdir)) as [ans|e] eqn:Hans; simpl; [|done].
  case_bool_decide as Hy; simpl; [done|].
  destruct (at_line 92 _ _) as [[]|] eqn:Hrm; simpl; [|done].
  destruct (at_line 93 _ _) as [[]|] eqn:Hmk; simpl; [|done]. intros [= <-].
  split; [by eauto 10|]. split; [by apply H93|].
  exists [OInput (prompt outdir); ORmtree outdir]. split; [done|].
  split; [by apply H92|]. right. eauto.
Qed.
End ConstructorFacts.

(** ** The definitions at work *)

(** The values of a list are pairwise distinct, by evaluation. *)
Ltac distinct_values :=
  repeat (apply NoDup_cons; split;
          [rewrite ?elem_of_cons, elem_of_nil; vm_compute; intuition discriminate|]);
  apply NoDup_nil_2.

(** C1, amended, on the batch of the [__main__] block: twelve ParameterSets,
    pairwise distinct. *)
Lemma run_batch_cartesian_grid_witness :
  NoDup main_ranges.*1 /\
  param_grid main_base main_ranges = Ok main_grid /\
  length main_grid = 12%nat /\
  NoDup main_grid.
Proof.
  assert (NoDup main_ranges.*1) as Hnd by (apply (bool_decide_unpack _); vm_compute; exact I).
  assert (param_grid main_base main_ranges = Ok main_grid) as Hgrid
    by (vm_compute; reflexivity).
  split_and!; [assumption..| |].
  - pose proof (run_batch_cartesian_grid toy_func 8 toy_self true None
                  main_base main_ranges Hnd) as (_ & _ & Hbuilt).
    destruct (Hbuilt main_grid Hgrid) as (_ & Hlen & _). exact Hlen.
  - pose proof (run_batch_cartesian_grid toy_func 8 toy_self true None
                  main_base main_ranges Hnd) as (_ & _ & Hbuilt).
    destruct (Hbuilt main_grid Hgrid) as (_ & _ & _ & _ & _ & _ & Hdistinct).
    apply Hdistinct.
    + repeat (apply Forall_cons; split; [distinct_values|]). apply Forall_nil_2.
    + intros [Hin _]. revert Hin. apply (bool_decide_unpack _). vm_compute. exact I.
    + intros [Hin _]. revert Hin. apply (bool_decide_unpack _). vm_compute. exact I.
Defined.

(** C1, as stated, fails.  With [mu] varied over [1.0] and [2.0] and
    [mu_scale = 3.0] and [dt = 1.0] given in the ranges, the checks pass, the
    two combinations are distinct, and line 115 overwrites the varied [mu]
    in both: the list holds the same ParameterSet twice.  And with
    [dt = 0.0] the list is not built: line 115 raises [ZeroDivisionError]
    and nothing is printed or run. *)
Lemma overwritten_mu_repeats_a_parameter_set :
  overwriting_ranges ≠ [] /\
  NoDup overwriting_ranges.*1 /\
  Forall NoDup overwriting_ranges.*2 /\
  length (product overwriting_ranges.*2) = 2%nat /\
  param_grid [] overwriting_ranges = Ok [overwritten_set; overwritten_set] /\
  dict_get "mu" overwritten_set = Some (VFloat (float_lit 3 1)) /\
  ¬ NoDup [overwritten_set; overwritten_set] /\
  zero_dt_ranges ≠ [] /\
  exists e,
    param_grid main_base zero_dt_ranges = Raise e /\
    exn_class e = ZeroDivisionError /\
    run_batch toy_func 8 toy_self main_base zero_dt_ranges true None = ([], Raise e).
Proof.
  split_and!.
  - discriminate.
  - apply (bool_decide_unpack _). vm_compute. exact I.
  - repeat (apply Forall_cons; split; [distinct_values|]). apply Forall_nil_2.
  - vm_compute. reflexivity.
  - vm_compute. reflexivity.
  - vm_compute. reflexivity.
  - intros [Hin _]%NoDup_cons. apply Hin. left.
  - discriminate.
  - eexists. split_and!; vm_compute; reflexivity.
Qed.

(** C2 on the first ParameterSet of that batch: [mu] is [mu_scale / dt]. *)
Lemma run_batch_derived_parameters_witness :
  NoDup main_ranges.*1 /\
  param_grid main_base main_ranges = Ok main_grid /\
  main_grid !! 0%nat = Some main_first /\
  exists mu_scale dt q,
    dict_get "mu_scale" main_first = Some mu_scale /\
    dict_get "dt" main_first = Some dt /\
    truediv mu_scale dt = Ok q /\ dict_get "mu" main_first = Some (VFloat q).
Proof.
  assert (NoDup main_ranges.*1) as Hnd by (apply (bool_decide_unpack _); vm_compute; exact I).
  assert (param_grid main_base main_ranges = Ok main_grid) as Hgrid
    by (vm_compute; reflexivity).
  assert (main_grid !! 0%nat = Some main_first) as Hout by (vm_compute; reflexivity).
  split_and!; [assumption..|].
  destruct (run_batch_derived_parameters main_base main_ranges main_grid 0 main_first
              Hnd Hgrid Hout) as (choice & Hch & Hmu & _).
  vm_compute in Hch. injection Hch as <-.
  destruct Hmu as (mu_scale & dt & q & _ & _ & H1 & H2 & H3 & H4);
    [vm_compute; reflexivity | vm_compute; reflexivity |].
  exists mu_scale, dt, q. exact (conj H1 (conj H2 (conj H3 H4))).
Defined.

(** C4, amended, on a batch that sets [mu_scale] and varies [mu]. *)
Lemma run_batch_configuration_errors_witness :
  rejected_ranges ≠ [] /\
  "mu_scale"%string ∈ rejected_base.*1 /\ "mu"%string ∈ rejected_ranges.*1 /\
  exists e,
    run_batch toy_func 8 toy_self rejected_base rejected_ranges true None = ([], Raise e) /\
    exn_class e = ValueError.
Proof.
  assert (rejected_ranges ≠ []) as Hne by discriminate.
  assert ("mu_scale"%string ∈ rejected_base.*1) as Hs
    by (apply (bool_decide_unpack _); vm_compute; exact I).
  assert ("mu"%string ∈ rejected_ranges.*1) as Hr
    by (apply (bool_decide_unpack _); vm_compute; exact I).
  split_and!; [assumption..|].
  pose proof (run_batch_configuration_errors toy_func 8 toy_self true None
                rejected_base rejected_ranges) as (_ & Hmu & _).
  exact (Hmu Hne Hs Hr).
Defined.

(** C4, as stated, fails: [mu] is set, [mu_scale] is varied, and the batch
    is expanded and handed to a pool of two workers. *)
Lemma raw_set_and_scale_varied_is_accepted :
  both_forms_given "mu_scale" "mu" accepted_base accepted_ranges /\
  (exists param_list,
     param_grid accepted_base accepted_ranges = Ok param_list /\
     length param_list = 2%nat) /\
  pools_created
    (run_batch toy_func 8 toy_self accepted_base accepted_ranges true None).1 = [2].
Proof.
  split_and!.
  - split; right + left; apply (bool_decide_unpack _); vm_compute; exact I.
  - eexists. split; vm_compute; reflexivity.
  - vm_compute. reflexivity.
Qed.

(** C5, as stated, fails: a [KeyboardInterrupt] raised by [true.advance()]
    in the first iteration leaves the wrapper, which returns nothing and
    prints nothing. *)
Lemma wrapper_lets_interrupt_through :
  simulation_wrapper (H0 := toy_solver (Some interrupt)) [] toy_kwargs
    = ([], Raise (Exn KeyboardInterrupt EmptyString
                      (frame 62 "simulation_wrapper" ++ frame 54 "run_simulation")%string)).
Proof. vm_compute. reflexivity. Qed.

(** C5, amended, on a solver that fails in the first iteration. *)
Lemma simulation_wrapper_outcome_witness :
  (a ← bind_args [] toy_kwargs; run_simulation (H0 := toy_solver (Some blow_up)) a)
    = Raise (Exn (OtherError "FloatingPointError") "overflow" (frame 54 "run_simulation")) /\
  (simulation_wrapper (H0 := toy_solver (Some blow_up)) [] toy_kwargs).2 = Ok None /\
  exists message,
    (simulation_wrapper (H0 := toy_solver (Some blow_up)) [] toy_kwargs).1
      = [EPrint [VDict []; VStr message]] /\
    contains message "FloatingPointError" /\ contains message "overflow".
Proof.
  assert ((a ← bind_args [] toy_kwargs;
           run_simulation (H0 := toy_solver (Some blow_up)) a)
          = Raise (Exn (OtherError "FloatingPointError") "overflow"
                       (frame 54 "run_simulation"))) as Hcall
    by (vm_compute; reflexivity).
  split; [exact Hcall|].
  pose proof (simulation_wrapper_outcome (H0 := toy_solver (Some blow_up)) [] toy_kwargs)
    as (_ & Hcaught & _).
  destruct (Hcaught _ Hcall eq_refl) as (Hout & message & Hlog & Hcls & Hmsg & _).
  split; [exact Hout|]. exists message. exact (conj Hlog (conj Hcls Hmsg)).
Defined.

(** C6, as stated, fails: no entry carries a flag under the key
    [succeeded]. *)
Lemma index_entries_have_no_succeeded_key :
  exists index,
    run_simulations_low toy_func 8 toy_self two_tasks None = (two_tasks_log, Ok ()) /\
    last two_tasks_log = Some (EDump (index_file toy_self) index) /\
    length index = 2%nat /\
    Forall (fun entry => dict_get "succeeded" entry = None) index /\
    (count_flag "succeeded" true index + count_flag "succeeded" false index)%nat = 0%nat.
Proof.
  eexists. split_and!.
  - vm_compute. reflexivity.
  - vm_compute. reflexivity.
  - vm_compute. reflexivity.
  - repeat constructor.
  - vm_compute. reflexivity.
Qed.

(** C6, amended, on a batch of one success and one failure. *)
Lemma index_completeness_witness :
  run_simulations_low toy_func 8 toy_self two_tasks None = (two_tasks_log, Ok ()) /\
  (count_flag "succeded" true (appended two_tasks_log)
   + count_flag "succeded" false (appended two_tasks_log))%nat = 2%nat.
Proof.
  assert (run_simulations_low toy_func 8 toy_self two_tasks None = (two_tasks_log, Ok ()))
    as Hrun by (vm_compute; reflexivity).
  split; [assumption|].
  destruct (index_completeness toy_func 8 toy_self two_tasks None two_tasks_log Hrun)
    as (index & _ & Happ & _ & _ & Hcount).
  rewrite <-Happ in Hcount. exact Hcount.
Defined.

(** C7 on the second task of that batch. *)
Lemma results_consumed_in_submission_order_witness :
  two_tasks !! 1%nat = Some [("dt"%string, VStr "fast")] /\
  exists entry,
    appended (run_simulations_low toy_func 8 toy_self two_tasks None).1 !! 1%nat
      = Some entry /\
    dict_get "params" entry = Some (VDict [("dt"%string, VStr "fast")]).
Proof.
  assert (two_tasks !! 1%nat = Some [("dt"%string, VStr "fast")]) as Hi by reflexivity.
  split; [assumption|].
  pose proof (results_consumed_in_submission_order toy_func 8 toy_self two_tasks None
                1 _ Hi) as (_ & Hentry & _).
  exact Hentry.
Defined.



(** C9, amended, on three coefficients and two modes. *)
Lemma fourier_projector_truncation_idempotent_witness :
  slice_start (VInt 2) 3 = Ok 2%nat /\
  zero_from (H := toy_numpy) 2 (zero_from (H := toy_numpy) 2 [1; 2; 3])
    = zero_from (H := toy_numpy) 2 [1; 2; 3] /\
  fourier_projector (H := toy_numpy) (zero_from (H := toy_numpy) 2 [1; 2; 3]) (VInt 2)
    = fourier_projector (H := toy_numpy) [1; 2; 3] (VInt 2).
Proof.
  assert (slice_start (VInt 2) (length ([1; 2; 3] : list (@num toy_numpy))) = Ok 2%nat)
    as Hstart by reflexivity.
  split; [exact Hstart|].
  exact (fourier_projector_truncation_idempotent (H := toy_numpy) [1; 2; 3] (VInt 2) 2 Hstart).
Defined.

(** C3: the periodic snapshots of a batch of forty tasks hold 9, 19, 29 and
    39 entries; after 23 tasks the snapshot on disk holds 19. *)
Lemma snapshots_of_forty_tasks :
  snapshot_sizes (run_simulations_low toy_func 8 toy_self forty_tasks None).1
    = [9; 19; 29; 39; 40]%nat /\
  snapshot_sizes
    (consume toy_self forty_tasks (take 23 (pool_imap toy_func forty_tasks)) 0 []).1
    = [9; 19]%nat.
Proof. split; vm_compute; reflexivity. Qed.

(** ** The further definitions at work *)


(** X2 on that batch: one file, for the one run that has a result. *)
Lemma artifacts_one_file_per_success_witness :
  two_tasks ≠ [] /\
  NoDup (saved_files (run_simulations_low toy_func 8 toy_self two_tasks None).1) /\
  length (saved_files (run_simulations_low toy_func 8 toy_self two_tasks None).1) = 1%nat.
Proof.
  assert (two_tasks ≠ []) as Hne by discriminate.
  split; [assumption|].
  pose proof (artifacts_one_file_per_success toy_func 8 toy_self two_tasks None Hne)
    as (Hnd & Hlen & _).
  split; [exact Hnd|]. vm_compute. reflexivity.
Defined.

(** X3 on that batch with [n_jobs = 5]: two processes. *)
Lemma worker_pool_bounds_witness :
  two_tasks ≠ [] /\
  exists processes rest,
    (run_simulations_low toy_func 8 toy_self two_tasks (Some 5)).1 = EPool processes :: rest /\
    processes = 2.
Proof.
  assert (two_tasks ≠ []) as Hne by discriminate.
  split; [assumption|].
  destruct (worker_pool_bounds toy_func 8 toy_self two_tasks (Some 5) Hne)
    as (processes & rest & Hlog & _ & _ & Hjobs).
  exists processes, rest. split; [exact Hlog|].
  destruct (Hjobs 5 eq_refl) as (_ & _ & Hmany). apply Hmany. simpl. lia.
Defined.

(** X4 on the batch of the [__main__] block: it returns normally. *)
Lemma run_batch_completes_iff_witness :
  NoDup main_ranges.*1 /\
  (run_batch toy_func 8 toy_self main_base main_ranges true None).2 = Ok ().
Proof.
  assert (NoDup main_ranges.*1) as Hnd by (apply (bool_decide_unpack _); vm_compute; exact I).
  split; [assumption|].
  apply (run_batch_completes_iff toy_func 8 toy_self main_base main_ranges true None Hnd).
  split_and!.
  - reflexivity.
  - repeat constructor; discriminate.
  - apply mapR_total. exists main_grid. vm_compute. reflexivity.
Defined.

(** X5 on a batch whose [dt] axis is empty. *)
Lemma run_batch_empty_axis_witness :
  NoDup empty_axis_ranges.*1 /\
  check_ranges main_base empty_axis_ranges = Ok () /\
  [] ∈ empty_axis_ranges.*2 /\
  exists e,
    run_batch toy_func 8 toy_self main_base empty_axis_ranges true None
      = ([EPrint [VList []]], Raise e) /\
    exn_class e = ValueError.
Proof.
  assert (NoDup empty_axis_ranges.*1) as Hnd
    by (apply (bool_decide_unpack _); vm_compute; exact I).
  assert (check_ranges main_base empty_axis_ranges = Ok ()) as Hcheck by reflexivity.
  assert ([] ∈ empty_axis_ranges.*2) as Hempty by (right; left).
  split_and!; [assumption..|].
  destruct (run_batch_empty_axis toy_func 8 toy_self main_base empty_axis_ranges true None
              Hnd Hcheck Hempty) as (e & Hrun & Hcls & _).
  exists e. exact (conj Hrun Hcls).
Defined.

(** X6 on a batch whose only step size is [0.0]. *)
Lemma run_batch_zero_dt_aborts_witness :
  NoDup zero_dt_ranges.*1 /\
  zero_dt_choice ∈ product zero_dt_ranges.*2 /\
  dict_get "dt" (overlay main_base zero_dt_ranges.*1 zero_dt_choice)
    = Some (VFloat (S754_zero false)) /\
  exists e, run_batch toy_func 8 toy_self main_base zero_dt_ranges true None = ([], Raise e).
Proof.
  assert (NoDup zero_dt_ranges.*1) as Hnd
    by (apply (bool_decide_unpack _); vm_compute; exact I).
  assert (zero_dt_choice ∈ product zero_dt_ranges.*2) as Hin by (vm_compute; left).
  assert (dict_get "dt" (overlay main_base zero_dt_ranges.*1 zero_dt_choice)
          = Some (VFloat (S754_zero false))) as Hdt by (vm_compute; reflexivity).
  split_and!; [assumption..|].
  apply (run_batch_zero_dt_aborts toy_func 8 toy_self main_base zero_dt_ranges true None
           zero_dt_choice (VFloat (S754_zero false)) Hnd Hin Hdt eq_refl).
  left. apply (bool_decide_unpack _). vm_compute. exact I.
Defined.

(** X7 on the first ParameterSet of the [__main__] batch: it has [mu] and
    [alpha]. *)
Lemma expanded_parameter_names_witness :
  NoDup main_ranges.*1 /\
  param_grid main_base main_ranges = Ok main_grid /\
  main_first ∈ main_grid /\
  "mu"%string ∈ dict_keys main_first /\ "alpha"%string ∈ dict_keys main_first.
Proof.
  assert (NoDup main_ranges.*1) as Hnd by (apply (bool_decide_unpack _); vm_compute; exact I).
  assert (param_grid main_base main_ranges = Ok main_grid) as Hgrid
    by (vm_compute; reflexivity).
  assert (main_first ∈ main_grid) as Hin by (vm_compute; left).
  split_and!; [assumption..| |].
  - apply (expanded_parameter_names main_base main_ranges main_grid main_first Hnd Hgrid Hin).
    right. left. split; [reflexivity|].
    split; right; apply (bool_decide_unpack _); vm_compute; exact I.
  - apply (expanded_parameter_names main_base main_ranges main_grid main_first Hnd Hgrid Hin).
    right. right. split; [reflexivity|].
    split; right; apply (bool_decide_unpack _); vm_compute; exact I.
Defined.

(** X8 on a ParameterSet that sets [N]. *)
Lemma simulation_wrapper_rejects_keys_witness :
  "N"%string ∈ dict_keys [("N"%string, VInt 3)] /\
  "N"%string ∈ kwargs_names /\
  exists message,
    simulation_wrapper (H0 := toy_solver None) [("N"%string, VInt 3)] toy_kwargs
      = ([EPrint [VDict [("N"%string, VInt 3)]; VStr message]], Ok None) /\
    contains message "TypeError".
Proof.
  assert ("N"%string ∈ dict_keys [("N"%string, VInt 3)]) as Hin by (left).
  assert ("N"%string ∈ kwargs_names) as Hkw
    by (apply (bool_decide_unpack _); vm_compute; exact I).
  split_and!; [assumption..|].
  destruct (simulation_wrapper_rejects_keys (H0 := toy_solver None)
              [("N"%string, VInt 3)] toy_kwargs "N" Hin (or_introl Hkw))
    as (message & Hrun & Hcls & _).
  exists message. exact (conj Hrun Hcls).
Defined.

(** X9 on a ParameterSet with [dt = 0]. *)
Lemma zero_dt_run_yields_no_result_witness :
  dict_get "dt" [("dt"%string, VInt 0)] = Some (VInt 0) /\
  is_zero_number (VInt 0) = true /\
  (simulation_wrapper (H0 := toy_solver None) [("dt"%string, VInt 0)] toy_kwargs).2
    ≠ Ok (Some five_steps_result).
Proof.
  split; [reflexivity|]. split; [reflexivity|].
  exact (zero_dt_run_yields_no_result (H0 := toy_solver None)
           [("dt"%string, VInt 0)] toy_kwargs (VInt 0) five_steps_result eq_refl eq_refl).
Defined.

(** X10 on the run of five steps. *)
Lemma run_simulation_result_names_witness :
  run_simulation (H0 := toy_solver None) five_steps_args = Ok five_steps_result /\
  NoDup (dict_keys five_steps_result).
Proof.
  assert (run_simulation (H0 := toy_solver None) five_steps_args = Ok five_steps_result)
    as Hrun by (vm_compute; reflexivity).
  split; [assumption|].
  destruct (run_simulation_result_names (H0 := toy_solver None)
              five_steps_args five_steps_result Hrun) as (d & _ & Hnd & _).
  exact Hnd.
Defined.

(** X14 on the constructor of the [__main__] block, the directory being
    there and the answer a yes. *)
Lemma init_returns_fresh_directory_witness :
  (exists self, io_out main_init = Ok self) /\
  exists before,
    io_log main_init
      = before ++ [OMakedirs "test"; OPrint "Initialized the chaotic initial state."].
Proof.
  split; [eexists; reflexivity|].
  destruct (init_returns_fresh_directory (H1 := toy_warmup) (H2 := toy_os true yes_answer)
              "test" (VInt 1) (VInt 256) (VFloat (float_lit 1 1000))
              (VFloat (float_lit 1 10000)) (VBool false)
              (@Build_BatchSimulator toy_numpy [0; 0; 0; 0] [0; 0; 0] "test" (VInt 256) (VInt 1)))
    as (_ & _ & before & Hlog & _); [vm_compute; reflexivity|].
  exists before. exact Hlog.
Defined.

(** X15 on the index file of the batch of two tasks. *)
Lemma files_stay_in_outdir_witness :
  "test/index.json"%string
    ∈ written_files (run_simulations_low toy_func 8 toy_self two_tasks None).1 /\
  exists name, "test/index.json"%string = (outdir toy_self ++ "/" ++ name)%string.
Proof.
  assert ("test/index.json"%string
            ∈ written_files (run_simulations_low toy_func 8 toy_self two_tasks None).1)
    as Hin by (vm_compute; right; left).
  split; [assumption|].
  exact (proj1 (files_stay_in_outdir toy_func 8 toy_self two_tasks None _ Hin)).
Defined.
